(** * Trading Lab utilities: paths, configuration, data and model loading

    A shallow embedding of [src/utils/paths.py], [src/utils/config.py],
    [src/utils/data_loader.py] and [src/utils/model_loader.py].

    Python exceptions become the [Raise] branch of a result type, the file
    system and the parsing libraries (pathlib, PyYAML, pandas, joblib,
    xgboost) are read through explicit environment records, and dictionaries
    are insertion-ordered association lists. *)

From Stdlib Require Import List String Ascii ZArith Bool Lia.
From Stdlib Require Import Sorting.Sorted.
From Stdlib Require Import Sorting.Permutation.
Import ListNotations.

Set Warnings "-register-all".

Local Open Scope string_scope.
Local Open Scope list_scope.

(* ================================================================== *)
(** * Python built-ins used by the sources *)
(* ================================================================== *)

Module Py.

(** [s.split(sep)] for a one-character separator: never empty, and
    [''.split('.') == ['']]. *)
Fixpoint split (sep : ascii) (s : string) : list string :=
  match s with
  | EmptyString => [EmptyString]
  | String c s' =>
      if Ascii.eqb c sep then EmptyString :: split sep s'
      else match split sep s' with
           | [] => [String c EmptyString]
           | piece :: pieces => String c piece :: pieces
           end
  end.

(** [sep.join(pieces)]. *)
Fixpoint join (sep : ascii) (pieces : list string) : string :=
  match pieces with
  | [] => EmptyString
  | [piece] => piece
  | piece :: rest => piece ++ String sep (join sep rest)
  end.

(** [c in s] for a character. *)
Fixpoint contains_char (c : ascii) (s : string) : bool :=
  match s with
  | EmptyString => false
  | String c' s' => Ascii.eqb c c' || contains_char c s'
  end.

(** [s.rfind(c)]: index of the last occurrence, [None] for Python's -1. *)
Fixpoint rfind (c : ascii) (s : string) : option nat :=
  match s with
  | EmptyString => None
  | String c' s' =>
      match rfind c s' with
      | Some i => Some (S i)
      | None => if Ascii.eqb c c' then Some 0 else None
      end
  end.

(** [s[i:]]. *)
Fixpoint drop (i : nat) (s : string) : string :=
  match i, s with
  | O, _ => s
  | S i', String _ s' => drop i' s'
  | S _, EmptyString => EmptyString
  end.

(** [x in xs] for a list of strings. *)
Definition mem (x : string) (xs : list string) : bool :=
  existsb (String.eqb x) xs.

End Py.

(* ================================================================== *)
(** * pathlib paths (POSIX flavour) and the file system *)
(* ================================================================== *)

Module Pathlib.

(** A pure path: whether it is anchored at [/], and its components. *)
Record Path : Type := mkPath { absolute : bool; parts : list string }.

Definition eqb (p q : Path) : bool :=
  Bool.eqb (absolute p) (absolute q)
  && (if list_eq_dec string_dec (parts p) (parts q) then true else false).

(** [Path(s)]: components are separated by [/]; empty components and
    [.] are dropped, [..] is kept. *)
Definition of_string (s : string) : Path :=
  {| absolute := match s with String "/" _ => true | _ => false end;
     parts := filter (fun c => negb (String.eqb c "" || String.eqb c "."))
                     (Py.split "/" s) |}.

(** [p / s]: an absolute right operand replaces the left one. *)
Definition joinpath (p : Path) (s : string) : Path :=
  let q := of_string s in
  if absolute q then q
  else {| absolute := absolute p; parts := parts p ++ parts q |}.

(** [p.parent]: purely lexical; the anchor and the empty relative path
    are their own parents. *)
Definition parent (p : Path) : Path :=
  {| absolute := absolute p; parts := removelast (parts p) |}.

(** [p.name]: the final component, empty when there is none. *)
Definition name (p : Path) : string := last (parts p) "".

(** [p.suffix]:
    [i = name.rfind('.'); name[i:] if 0 < i < len(name) - 1 else '']. *)
Definition suffix (p : Path) : string :=
  let name := name p in
  match Py.rfind "." name with
  | Some i =>
      if (0 <? i)%nat && (i <? String.length name - 1)%nat
      then Py.drop i name else ""
  | None => ""
  end.

(** What the sources observe of the file system. *)
Record FileSystem : Type := mkFS {
  cwd : Path;                            (* Path.cwd() *)
  path_exists : Path -> bool;            (* p.exists() *)
  resolve : Path -> Path;                (* p.resolve() *)
  glob : Path -> string -> list Path     (* list(p.glob(pattern)), for a
                                            pattern that pathlib accepts *)
}.

End Pathlib.

Export Pathlib.
Notation "p // s" := (joinpath p s) (at level 40, left associativity).

(* ================================================================== *)
(** * Exceptions *)
(* ================================================================== *)

(** An f-string message: literal text with interpolated paths and lists. *)
Inductive fragment : Type :=
| Text (s : string)
| PathStr (p : Path)
| ListRepr (xs : list string).

Definition message : Type := list fragment.

Inductive exn : Type :=
| FileNotFoundError (msg : message)
| ValueError (msg : message)
| KeyError (key : string)
| AttributeError (attr : string)
| LibraryError (what : string).   (* raised inside a library, never caught *)

Inductive result (A : Type) : Type :=
| Ok (a : A)
| Raise (e : exn).
Arguments Ok {A} a.
Arguments Raise {A} e.

Definition bind {A B : Type} (r : result A) (k : A -> result B) : result B :=
  match r with
  | Ok a => k a
  | Raise e => Raise e
  end.

Notation "x <- r ;; k" := (bind r (fun x => k))
  (at level 61, r at next level, right associativity).

(** The paths interpolated in a message, in order. *)
Definition paths_of (msg : message) : list Path :=
  flat_map (fun f => match f with PathStr p => [p] | _ => [] end) msg.

(* ================================================================== *)
(** * [src/utils/paths.py] *)
(* ================================================================== *)

Section Paths.

Variable fs : FileSystem.

(** The marker test of [get_project_root]: [requirements.txt],
    [data/raw], [models] or [src] below [check_path]. *)
Definition has_project_marker (check_path : Path) : bool :=
  path_exists fs (check_path // "requirements.txt")
  || path_exists fs (check_path // "data" // "raw")
  || path_exists fs (check_path // "models")
  || path_exists fs (check_path // "src").

(** The list the [for] loop of [get_project_root] runs over. *)
Definition search_range (start_path : Path) : list Path :=
  [ start_path;
    parent start_path;
    parent (parent start_path);
    parent (parent (parent start_path));
    parent (parent (parent (parent start_path))) ].

Definition get_project_root (start_path : option Path) : Path :=
  let start_path :=
    match start_path with None => cwd fs | Some p => p end in
  match find has_project_marker (search_range start_path) with
  | Some check_path => resolve fs check_path
  | None => resolve fs start_path
  end.

Definition resolve_data_path (relative_path data_type : string) : Path :=
  let project_root := get_project_root None in
  let data_dir := project_root // "data" // data_type in
  resolve fs (data_dir // relative_path).

Definition resolve_model_path (model_filename : string) : Path :=
  let project_root := get_project_root None in
  let models_dir := project_root // "models" in
  resolve fs (models_dir // model_filename).

Definition find_data_file (pattern data_type : string) : option Path :=
  let project_root := get_project_root None in
  let data_dir := project_root // "data" // data_type in
  if negb (path_exists fs data_dir) then None
  else match glob fs data_dir pattern with
       | [] => None
       | first_match :: _ => Some first_match
       end.

End Paths.

(* ================================================================== *)
(** * [src/utils/config.py] *)
(* ================================================================== *)

(** A Python value as YAML produces it ([typing.Any]). A float literal
    [m * 10^e] is kept as its decimal
    mantissa and exponent; mappings keep insertion order. *)
Inductive Any : Type :=
| VNone
| VBool (b : bool)
| VInt (n : Z)
| VFloat (mantissa exponent : Z)
| VStr (s : string)
| VList (items : list Any)
| VDict (items : list (string * Any)).

(** A [dict] with string keys, in insertion order. *)
Definition dict : Type := list (string * Any).

(** [d.keys()]. *)
Definition keys (d : dict) : list string := map fst d.

(** [d.get(key)]: [None] when [key not in d]. *)
Fixpoint dict_get (key : string) (d : dict) : option Any :=
  match d with
  | [] => None
  | (k, v) :: rest => if String.eqb key k then Some v else dict_get key rest
  end.

(** [d[key] = v]: overwrite in place, or append a new key at the end. *)
Fixpoint dict_set (key : string) (v : Any) (d : dict) : dict :=
  match d with
  | [] => [(key, v)]
  | (k, v') :: rest =>
      if String.eqb key k then (k, v) :: rest
      else (k, v') :: dict_set key v rest
  end.

(** [isinstance(v, dict)]. *)
Definition is_dict (v : Any) : bool :=
  match v with VDict _ => true | _ => false end.

(** Python truthiness, as tested by [yaml.safe_load(f) or {}]. *)
Definition truthy (v : Any) : bool :=
  match v with
  | VNone => false
  | VBool b => b
  | VInt n => negb (n =? 0)%Z
  | VFloat m _ => negb (m =? 0)%Z
  | VStr s => negb (String.eqb s "")
  | VList items => match items with [] => false | _ => true end
  | VDict items => match items with [] => false | _ => true end
  end.

(** One iteration of the loop of [_merge_config], given the function to
    call on two nested mappings. *)
Definition merge_item (merge : dict -> Any -> dict)
    (result : dict) (key : string) (value : Any) : dict :=
  match dict_get key result with
  | Some (VDict nested) =>
      if is_dict value
      then dict_set key (VDict (merge nested value)) result
      else dict_set key value result
  | _ => dict_set key value result
  end.

(** [_merge_config default user] with [user] wrapped as a value, so that
    the recursion on the nested user mappings is structural. *)
Fixpoint merge_with (default : dict) (user : Any) {struct user} : dict :=
  match user with
  | VDict items =>
      (fix loop (result : dict) (items : dict) {struct items} : dict :=
         match items with
         | [] => result
         | (key, value) :: rest =>
             loop (merge_item merge_with result key value) rest
         end) default items
  | _ => default
  end.

Definition _merge_config (default user : dict) : dict :=
  merge_with default (VDict user).

Definition _get_default_config : dict :=
  [ ("trading",
      VDict [ ("symbol", VStr "SPY");
              ("timeframe", VStr "D1");
              ("lookback_days", VInt 5000) ]);
    ("features",
      VDict [ ("horizon_days", VInt 5);
              ("rsi_period", VInt 14);
              ("ema_short", VInt 20);
              ("ema_long", VInt 50);
              ("atr_period", VInt 14) ]);
    ("model",
      VDict [ ("n_estimators", VInt 100);
              ("learning_rate", VFloat 5 (-2));
              ("train_ratio", VFloat 8 (-1));
              ("random_state", VInt 42) ]);
    ("backtest",
      VDict [ ("initial_capital", VFloat 1000 (-1));
              ("commission_rate", VFloat 1 (-3));
              ("slippage", VFloat 1 (-4)) ]) ].

(** The [for key in keys] loop of [get_config_value]. *)
Fixpoint walk_keys (value : Any) (keys : list string) (default : Any)
  : Any :=
  match keys with
  | [] => value
  | key :: rest =>
      match value with
      | VDict d =>
          match dict_get key d with
          | Some v => walk_keys v rest default
          | None => default
          end
      | _ => default
      end
  end.

Definition get_config_value (config : Any) (key_path : string)
    (default : Any) : Any :=
  let keys := Py.split "." key_path in
  walk_keys config keys default.

Section Config.

Variable fs : FileSystem.
(** [open(path)] followed by [yaml.safe_load]: the parsed document
    ([VNone] for an empty one), or the exception either of them raises. *)
Variable yaml_safe_load : Path -> result Any.

(** The three locations probed when no path is given. *)
Definition possible_config_paths : list Path :=
  let project_root := get_project_root fs None in
  [ project_root // "config.yaml";
    project_root // "config" // "config.yaml";
    project_root // "config" // "config.example.yaml" ].

(** [load_config] from the second [exists] test on. *)
Definition load_config_at (config_path : Path) : result dict :=
  if negb (path_exists fs config_path) then Ok _get_default_config
  else
    loaded <- yaml_safe_load config_path ;;
    let config := if truthy loaded then loaded else VDict [] in
    let default_config := _get_default_config in
    match config with
    | VDict user => Ok (_merge_config default_config user)
    | _ => Raise (AttributeError "items")
    end.

Definition load_config (config_path : option Path) : result dict :=
  match config_path with
  | None =>
      match find (path_exists fs) possible_config_paths with
      | Some path => load_config_at path
      | None => Ok _get_default_config
      end
  | Some path => load_config_at path
  end.

End Config.

(* ================================================================== *)
(** * pandas data frames, as far as the loaders use them *)
(* ================================================================== *)

(** A cell is the text read from the CSV file, or, after [pd.to_datetime
    (..., utc=True)], a timezone-aware UTC timestamp ([None] is [NaT]). *)
Inductive cell : Type :=
| Obj (text : string)
| Datetime (utc : option Z).

Definition row : Type := list cell.

Record DataFrame : Type := mkDataFrame {
  columns : list string;
  rows : list row
}.

(** Position of the first column labelled [label]. *)
Fixpoint index_of (label : string) (cols : list string) : option nat :=
  match cols with
  | [] => None
  | c :: rest =>
      if String.eqb label c then Some 0%nat
      else option_map S (index_of label rest)
  end.

Fixpoint map_result {A B : Type} (f : A -> result B) (xs : list A)
  : result (list B) :=
  match xs with
  | [] => Ok []
  | x :: rest =>
      y <- f x ;;
      ys <- map_result f rest ;;
      Ok (y :: ys)
  end.

Section Pandas.

(** The timestamp parser behind [pd.to_datetime(..., utc=True)]: an
    instant in UTC, [NaT] for a missing entry, or the parser's error. *)
Variable parse_datetime : string -> result (option Z).

Definition convert_cell (c : cell) : result cell :=
  match c with
  | Obj text => t <- parse_datetime text ;; Ok (Datetime t)
  | Datetime t => Ok (Datetime t)
  end.

Fixpoint convert_at (i : nat) (r : row) : result row :=
  match r, i with
  | [], _ => Ok []
  | c :: rest, O => c' <- convert_cell c ;; Ok (c' :: rest)
  | c :: rest, S i' => rest' <- convert_at i' rest ;; Ok (c :: rest')
  end.

(** [df[label] = pd.to_datetime(df[label], utc=True)]. *)
Definition to_datetime (label : string) (df : DataFrame)
  : result DataFrame :=
  match index_of label (columns df) with
  | None => Raise (KeyError label)
  | Some i =>
      rows' <- map_result (convert_at i) (rows df) ;;
      Ok {| columns := columns df; rows := rows' |}
  end.

End Pandas.

(** [df.rename(columns={old: new}, inplace=True)]. *)
Definition rename (old new : string) (df : DataFrame) : DataFrame :=
  {| columns := map (fun c => if String.eqb c old then new else c)
                    (columns df);
     rows := rows df |}.

(** The sort key of a row: its timestamp in column [i]. *)
Definition sort_key (i : nat) (r : row) : option Z :=
  match nth_error r i with
  | Some (Datetime t) => t
  | _ => None
  end.

(** Ascending order of timestamps, [NaT] last ([na_position='last']). *)
Definition key_leb (a b : option Z) : bool :=
  match a, b with
  | Some x, Some y => (x <=? y)%Z
  | _, None => true
  | None, Some _ => false
  end.

Fixpoint insert_row (i : nat) (r : row) (sorted : list row) : list row :=
  match sorted with
  | [] => [r]
  | r' :: rest =>
      if key_leb (sort_key i r) (sort_key i r') then r :: sorted
      else r' :: insert_row i r rest
  end.

Definition sort_rows (i : nat) (rs : list row) : list row :=
  fold_right (insert_row i) [] rs.

(** [df.sort_values(by).reset_index(drop=True)] on a datetime column; an
    unknown label raises [KeyError]. The row index is not modelled, so
    [reset_index] leaves nothing to do. *)
Definition sort_values (by_ : string) (df : DataFrame) : result DataFrame :=
  match index_of by_ (columns df) with
  | None => Raise (KeyError by_)
  | Some i => Ok {| columns := columns df; rows := sort_rows i (rows df) |}
  end.

(* ================================================================== *)
(** * [src/utils/data_loader.py] *)
(* ================================================================== *)

Section DataLoader.

Variable fs : FileSystem.
(** [pd.read_csv]: the parsed table, or the exception it raises. *)
Variable read_csv : Path -> result DataFrame.
Variable parse_datetime : string -> result (option Z).

(** [if filename:] holds for a non-empty string only. *)
Definition given (filename : option string) : option string :=
  match filename with
  | Some f => if String.eqb f "" then None else Some f
  | None => None
  end.

(** The first part of [load_raw_data]: which file to read. *)
Definition raw_csv_path (filename : option string)
    (pattern symbol : string) : result Path :=
  match given filename with
  | Some filename =>
      let csv_path := resolve_data_path fs filename "raw" in
      if negb (path_exists fs csv_path)
      then Raise (FileNotFoundError
                    [Text "Raw data file not found: "; PathStr csv_path])
      else Ok csv_path
  | None =>
      match find_data_file fs pattern "raw" with
      | Some csv_path => Ok csv_path
      | None =>
          match find_data_file fs (symbol ++ "*.csv") "raw" with
          | Some csv_path => Ok csv_path
          | None =>
              let project_root := get_project_root fs None in
              Raise (FileNotFoundError
                [Text "No "; Text symbol; Text " CSV files found in ";
                 PathStr (project_root // "data" // "raw");
                 Text ". Please ensure raw data exists or specify filename directly."])
          end
      end
  end.

Definition required_cols : list string :=
  ["time"; "open"; "high"; "low"; "close"].

(** The block "Ensure time column is datetime" of [load_raw_data]. *)
Definition ensure_time_column (df : DataFrame) : result DataFrame :=
  if Py.mem "time" (columns df) then
    to_datetime parse_datetime "time" df
  else if Py.mem "date" (columns df) then
    df <- to_datetime parse_datetime "date" df ;;
    Ok (rename "date" "time" df)
  else if Py.mem "Date" (columns df) then
    df <- to_datetime parse_datetime "Date" df ;;
    Ok (rename "Date" "time" df)
  else Ok df.

Definition load_raw_data (filename : option string)
    (pattern symbol : string) : result DataFrame :=
  csv_path <- raw_csv_path filename pattern symbol ;;
  df <- read_csv csv_path ;;
  df <- ensure_time_column df ;;
  df <- sort_values "time" df ;;
  let missing_cols :=
    filter (fun col => negb (Py.mem col (columns df))) required_cols in
  match missing_cols with
  | _ :: _ =>
      Raise (ValueError
               [Text "Missing required columns: "; ListRepr missing_cols])
  | [] => Ok df
  end.

Definition load_processed_data (filename : string) : result DataFrame :=
  let csv_path := resolve_data_path fs filename "processed" in
  if negb (path_exists fs csv_path) then
    let project_root := get_project_root fs None in
    Raise (FileNotFoundError
      [Text "Processed data file not found: "; PathStr csv_path;
       Text "\nPlease ensure processed data exists in ";
       PathStr (project_root // "data" // "processed")])
  else
    df <- read_csv csv_path ;;
    df <- (if Py.mem "time" (columns df) then
             to_datetime parse_datetime "time" df
           else Ok df) ;;
    df <- sort_values "time" df ;;
    Ok df.

End DataLoader.

(* ================================================================== *)
(** * [src/utils/model_loader.py] *)
(* ================================================================== *)

Section ModelLoader.

(** Model objects are opaque to the loader. *)
Variable model_object : Type.
Variable fs : FileSystem.
(** Whether [import xgboost] succeeds. *)
Variable xgboost_available : bool.
(** [xgb.Booster().load_model(str(path))] wrapped in a fresh
    [XGBClassifier]: the classifier, or the exception raised. *)
Variable load_booster : Path -> result model_object.
(** [joblib.load(path)]: the pickled object ([None] when that object is
    Python's [None]), or the exception raised. *)
Variable joblib_load : Path -> result (option model_object).

Definition possible_paths (model_name : string) (model_path : option Path)
  : list Path :=
  match model_path with
  | Some model_path => [model_path]
  | None =>
      let project_root := get_project_root fs None in
      [ resolve_model_path fs (model_name ++ ".pkl");
        resolve_model_path fs (model_name ++ ".json");
        project_root // "models" // (model_name ++ ".pkl");
        project_root // "models" // (model_name ++ ".json");
        of_string ("models/" ++ model_name ++ ".pkl");
        of_string ("models/" ++ model_name ++ ".json");
        of_string ("../models/" ++ model_name ++ ".pkl");
        of_string ("../models/" ++ model_name ++ ".json") ]
  end.

(** The [for path in possible_paths] loop, as the values of the variables
    [model] and [model_type] when it ends (both start as [None]):
    [continue] is the recursive call on the remaining candidates, [break]
    returns the pair just assigned. *)
Fixpoint try_paths (paths : list Path)
  : option model_object * option string :=
  match paths with
  | [] => (None, None)
  | path :: rest =>
      if negb (path_exists fs path) then try_paths rest
      else if String.eqb (suffix path) ".json" then
        if negb xgboost_available then try_paths rest
        else match load_booster path with
             | Ok xgb_classifier => (Some xgb_classifier, Some "xgboost")
             | Raise _ => try_paths rest
             end
      else if String.eqb (suffix path) ".pkl" then
        match joblib_load path with
        | Ok loaded => (loaded, Some "sklearn")
        | Raise _ => try_paths rest
        end
      else try_paths rest
  end.

Definition load_trained_model (model_name : string)
    (model_path : option Path) : result (model_object * option string) :=
  let (model, model_type) :=
    try_paths (possible_paths model_name model_path) in
  match model with
  | None =>
      let project_root := get_project_root fs None in
      Raise (FileNotFoundError
        [Text "Could not find model file '"; Text model_name;
         Text "'. Tried:\n  - ";
         PathStr (project_root // "models" // (model_name ++ ".pkl"));
         Text "\n  - ";
         PathStr (project_root // "models" // (model_name ++ ".json"));
         Text "\nPlease ensure model file exists in ";
         PathStr (project_root // "models")])
  | Some model => Ok (model, model_type)
  end.

End ModelLoader.

(* ================================================================== *)
(** * A concrete file system for examples *)
(* ================================================================== *)

Module Fixture.

(** Resolution of [..] against the components seen so far (reversed). *)
Fixpoint collapse (seen : list string) (ps : list string) : list string :=
  match ps with
  | [] => rev seen
  | p :: rest =>
      if String.eqb p ".." then collapse (tl seen) rest
      else collapse (p :: seen) rest
  end.

Definition resolve_from (cwd p : Path) : Path :=
  {| absolute := true;
     parts := collapse [] (if absolute p then parts p
                           else parts cwd ++ parts p) |}.

Fixpoint is_prefix (xs ys : list string) : bool :=
  match xs, ys with
  | [], _ => true
  | x :: xs', y :: ys' => String.eqb x y && is_prefix xs' ys'
  | _ :: _, [] => false
  end.

(** The file system holding exactly [files] (absolute paths) and the
    directories above them; [listing] answers every glob. *)
Definition tree (cwd : Path) (files : list Path)
    (listing : Path -> string -> list Path) : FileSystem :=
  {| cwd := cwd;
     path_exists := fun p =>
       existsb (fun f => is_prefix (parts (resolve_from cwd p)) (parts f))
               files;
     resolve := resolve_from cwd;
     glob := listing |}.

Definition no_listing : Path -> string -> list Path := fun _ _ => [].

End Fixture.

(* ================================================================== *)
(** * Specification vocabulary and example inputs *)
(* ================================================================== *)

(** The marker test, spelled out. *)
Definition contains_marker (fs : FileSystem) (dir : Path) : Prop :=
  path_exists fs (dir // "requirements.txt") = true
  \/ path_exists fs (dir // "data" // "raw") = true
  \/ path_exists fs (dir // "models") = true
  \/ path_exists fs (dir // "src") = true.

(** The [i]-th ancestor of a path, itself for [i = 0]. *)
Definition ancestor (i : nat) (p : Path) : Path := Nat.iter i parent p.

Module PathExamples.
Import Fixture.

(** [/proj/requirements.txt] lies two levels above [/proj/a/b]. *)
Definition fs : FileSystem :=
  tree (of_string "/proj/a/b")
       [of_string "/proj/requirements.txt"; of_string "/proj/a/b/notes.txt"]
       no_listing.

(** Nothing but an unrelated file. *)
Definition bare : FileSystem :=
  tree (of_string "/tmp/x") [of_string "/tmp/x/notes.txt"] no_listing.

End PathExamples.

(** Following a list of keys through nested mappings, one lookup per key. *)
Inductive reaches : Any -> list string -> Any -> Prop :=
| reaches_here (v : Any) : reaches v [] v
| reaches_below (d : dict) (key : string) (keys : list string) (v v' : Any) :
    dict_get key d = Some v ->
    reaches v keys v' ->
    reaches (VDict d) (key :: keys) v'.

(** Indexing [v] with [key] is impossible: [v] is not a mapping, or it is
    one without that key. *)
Definition cannot_index (v : Any) (key : string) : Prop :=
  match v with
  | VDict d => dict_get key d = None
  | _ => True
  end.

(** The value of a key after merging a user value over what the defaults
    hold for it: two mappings merge, anything else is overwritten. *)
Definition merged_entry (default_entry : option Any) (user_entry : Any) : Any :=
  match default_entry, user_entry with
  | Some (VDict nested), VDict user => VDict (_merge_config nested user)
  | _, _ => user_entry
  end.

Module ConfigExamples.

(** [{trading: {symbol: QQQ}}]. *)
Definition user_qqq : dict := [("trading", VDict [("symbol", VStr "QQQ")])].

(** The defaults with only [trading.symbol] changed. *)
Definition default_with_qqq : dict :=
  [ ("trading",
      VDict [ ("symbol", VStr "QQQ");
              ("timeframe", VStr "D1");
              ("lookback_days", VInt 5000) ]);
    ("features",
      VDict [ ("horizon_days", VInt 5);
              ("rsi_period", VInt 14);
              ("ema_short", VInt 20);
              ("ema_long", VInt 50);
              ("atr_period", VInt 14) ]);
    ("model",
      VDict [ ("n_estimators", VInt 100);
              ("learning_rate", VFloat 5 (-2));
              ("train_ratio", VFloat 8 (-1));
              ("random_state", VInt 42) ]);
    ("backtest",
      VDict [ ("initial_capital", VFloat 1000 (-1));
              ("commission_rate", VFloat 1 (-3));
              ("slippage", VFloat 1 (-4)) ]) ].

(** [{"a": {"b": 5}}] and [{"a": {}}]. *)
Definition a_b_5 : Any := VDict [("a", VDict [("b", VInt 5)])].
Definition a_empty : Any := VDict [("a", VDict [])].

(** A project at [/proj] whose only configuration file is the example
    one; it overrides [trading.symbol]. *)
Definition fs : FileSystem :=
  Fixture.tree (of_string "/proj")
    [of_string "/proj/requirements.txt";
     of_string "/proj/config/config.example.yaml";
     of_string "/proj/config/empty.yaml"]
    Fixture.no_listing.

Definition yaml_safe_load (p : Path) : result Any :=
  if Pathlib.eqb p (of_string "/proj/config/config.example.yaml")
  then Ok (VDict user_qqq)
  else if Pathlib.eqb p (of_string "/proj/config/empty.yaml")
  then Ok VNone
  else Raise (LibraryError "open").

(** A project with an empty [config.yaml] at its root. *)
Definition fs_empty : FileSystem :=
  Fixture.tree (of_string "/proj")
    [of_string "/proj/requirements.txt"; of_string "/proj/config.yaml"]
    Fixture.no_listing.

Definition yaml_empty (p : Path) : result Any := Ok VNone.

(** A project without any configuration file. *)
Definition fs_none : FileSystem :=
  Fixture.tree (of_string "/proj")
    [of_string "/proj/requirements.txt"] Fixture.no_listing.

End ConfigExamples.

(** Chronological order of timestamps, [NaT] after every instant. *)
Definition time_le (a b : option Z) : Prop :=
  match a, b with
  | Some x, Some y => (x <= y)%Z
  | _, None => True
  | None, Some _ => False
  end.

(** Column [i] holds timezone-aware timestamps only. *)
Definition tz_aware_column (i : nat) (df : DataFrame) : Prop :=
  forall r c, In r (rows df) -> nth_error r i = Some c ->
  exists t, c = Datetime t.

(** Every row comes before all later rows in the order of column [i]. *)
Definition sorted_by_column (i : nat) (df : DataFrame) : Prop :=
  StronglySorted time_le (map (sort_key i) (rows df)).

(** The table has a [time] column, timezone-aware and ascending. *)
Definition chronological (df : DataFrame) : Prop :=
  exists i, index_of "time" (columns df) = Some i
            /\ tz_aware_column i df
            /\ sorted_by_column i df.

Module DataExamples.

Definition raw_dir : Path := of_string "/proj/data/raw".
Definition processed_dir : Path := of_string "/proj/data/processed".

Definition listing (dir : Path) (pattern : string) : list Path :=
  if Pathlib.eqb dir raw_dir && String.eqb pattern "SPY*.csv"
  then [raw_dir // "SPY_D1.csv"] else [].

Definition fs : FileSystem :=
  Fixture.tree (of_string "/proj")
    [ of_string "/proj/requirements.txt";
      raw_dir // "SPY_D1.csv";
      raw_dir // "no_time.csv";
      raw_dir // "no_close.csv";
      processed_dir // "spy_featured.csv";
      processed_dir // "features_only.csv" ]
    listing.

(** [Date,open,high,low,close], latest row first. *)
Definition spy_d1 : DataFrame :=
  {| columns := ["Date"; "open"; "high"; "low"; "close"];
     rows := [ [Obj "2024-01-03"; Obj "3"; Obj "4"; Obj "2"; Obj "3"];
               [Obj "2024-01-01"; Obj "1"; Obj "2"; Obj "0"; Obj "1"];
               [Obj "2024-01-02"; Obj "2"; Obj "3"; Obj "1"; Obj "2"] ] |}.

(** [open,high,low,close]: no time column under any of its names. *)
Definition no_time : DataFrame :=
  {| columns := ["open"; "high"; "low"; "close"];
     rows := [ [Obj "1"; Obj "2"; Obj "0"; Obj "1"] ] |}.

(** [time,open,high,low]: only [close] is missing. *)
Definition no_close : DataFrame :=
  {| columns := ["time"; "open"; "high"; "low"];
     rows := [ [Obj "2024-01-01"; Obj "1"; Obj "2"; Obj "0"] ] |}.

(** [time,rsi,target], out of order. *)
Definition spy_featured : DataFrame :=
  {| columns := ["time"; "rsi"; "target"];
     rows := [ [Obj "2024-01-02"; Obj "55.0"; Obj "1"];
               [Obj "2024-01-01"; Obj "45.0"; Obj "0"] ] |}.

(** [rsi,target]: processed features without a time column. *)
Definition features_only : DataFrame :=
  {| columns := ["rsi"; "target"];
     rows := [ [Obj "55.0"; Obj "1"] ] |}.

Definition read_csv (p : Path) : result DataFrame :=
  if Pathlib.eqb p (raw_dir // "SPY_D1.csv") then Ok spy_d1
  else if Pathlib.eqb p (raw_dir // "no_time.csv") then Ok no_time
  else if Pathlib.eqb p (raw_dir // "no_close.csv") then Ok no_close
  else if Pathlib.eqb p (processed_dir // "spy_featured.csv")
  then Ok spy_featured
  else if Pathlib.eqb p (processed_dir // "features_only.csv")
  then Ok features_only
  else Raise (LibraryError "read_csv").

(** Days of January 2024, counted from the first. *)
Definition parse_datetime (text : string) : result (option Z) :=
  if String.eqb text "2024-01-01" then Ok (Some 0%Z)
  else if String.eqb text "2024-01-02" then Ok (Some 1%Z)
  else if String.eqb text "2024-01-03" then Ok (Some 2%Z)
  else if String.eqb text "" then Ok None
  else Raise (LibraryError "to_datetime").

End DataExamples.

Section ModelVocabulary.

Variable model_object : Type.
Variable fs : FileSystem.
Variable xgboost_available : bool.
Variable load_booster : Path -> result model_object.
Variable joblib_load : Path -> result (option model_object).

(** A candidate the loader passes over: it does not exist, it is a
    [.json] file while xgboost is unavailable, its load raises, or it is
    neither a [.json] nor a [.pkl] file. *)
Definition skipped (path : Path) : Prop :=
  path_exists fs path = false
  \/ (suffix path = ".json" /\ xgboost_available = false)
  \/ (suffix path = ".json" /\ exists e, load_booster path = Raise e)
  \/ (suffix path = ".pkl" /\ exists e, joblib_load path = Raise e)
  \/ (suffix path <> ".json" /\ suffix path <> ".pkl").

(** A candidate that loads a model, with the tag of its format. *)
Definition loads (path : Path) (model : model_object) (model_type : string)
  : Prop :=
  path_exists fs path = true
  /\ ((suffix path = ".json" /\ xgboost_available = true
       /\ load_booster path = Ok model /\ model_type = "xgboost")
      \/ (suffix path = ".pkl"
          /\ joblib_load path = Ok (Some model) /\ model_type = "sklearn")).

(** A [.pkl] candidate whose pickled object is [None]: no model. *)
Definition unpickles_none (path : Path) : Prop :=
  path_exists fs path = true
  /\ suffix path = ".pkl" /\ joblib_load path = Ok None.

End ModelVocabulary.

Module ModelExamples.

(** Models are named by a string here. *)
Definition model_object : Type := string.

(** The working directory [/proj/a/b] is its own project root (it holds
    [src]); its [models] directory holds a corrupt [.json] file, and a
    valid [.pkl] file lies in [/proj/a/models]. *)
Definition fs : FileSystem :=
  Fixture.tree (of_string "/proj/a/b")
    [ of_string "/proj/a/b/src/main.py";
      of_string "/proj/a/b/models/xgboost_spy_v1.json";
      of_string "/proj/a/models/xgboost_spy_v1.pkl" ]
    Fixture.no_listing.

Definition load_booster (p : Path) : result model_object :=
  Raise (LibraryError "XGBoostError").

Definition joblib_load (p : Path) : result (option model_object) :=
  if Pathlib.eqb (resolve fs p) (of_string "/proj/a/models/xgboost_spy_v1.pkl")
  then Ok (Some "forest") else Raise (LibraryError "UnpicklingError").

(** A project without any model file. *)
Definition fs_empty : FileSystem :=
  Fixture.tree (of_string "/proj")
    [of_string "/proj/requirements.txt"] Fixture.no_listing.

End ModelExamples.

(* ================================================================== *)
(** * Vocabulary for further properties *)
(* ================================================================== *)

(** No string occurs twice in [ks]. *)
Fixpoint distinct (ks : list string) : bool :=
  match ks with
  | [] => true
  | k :: rest => negb (Py.mem k rest) && distinct rest
  end.

(** Every mapping reached from [v] through mappings holds each key once,
    as every Python [dict] does. *)
Fixpoint unique_keys (v : Any) : bool :=
  match v with
  | VDict items =>
      distinct (map fst items)
      && (fix all_values (l : list (string * Any)) : bool :=
            match l with
            | [] => true
            | (_, x) :: rest => unique_keys x && all_values rest
            end) items
  | _ => true
  end.

(** The keys of [user] that [default] does not have, in the order of
    [user]. *)
Definition new_keys (default user : dict) : list string :=
  filter (fun key => negb (Py.mem key (keys default))) (keys user).

Module MergeExamples.

(** A user file that changes one default, adds a key to a section and
    adds a section of its own. *)
Definition user : dict :=
  [ ("logging", VDict [("level", VStr "INFO")]);
    ("trading", VDict [("symbol", VStr "QQQ"); ("venue", VStr "ARCA")]) ].

End MergeExamples.

Module DocumentExamples.

(** A project whose [config.yaml] holds a YAML list, and whose
    [zero.yaml] holds the number 0. *)
Definition fs : FileSystem :=
  Fixture.tree (of_string "/proj")
    [ of_string "/proj/requirements.txt";
      of_string "/proj/config.yaml";
      of_string "/proj/zero.yaml" ]
    Fixture.no_listing.

Definition yaml_safe_load (p : Path) : result Any :=
  if Pathlib.eqb p (of_string "/proj/config.yaml")
  then Ok (VList [VStr "SPY"; VStr "QQQ"])
  else if Pathlib.eqb p (of_string "/proj/zero.yaml")
  then Ok (VInt 0)
  else Raise (LibraryError "YAMLError").

End DocumentExamples.

(** Row [r'] is row [r] with the cell of column [i] replaced by its
    timestamp, as the parser reads it, and every other cell unchanged. *)
Definition time_parsed (parse_datetime : string -> result (option Z))
    (i : nat) (r r' : row) : Prop :=
  List.length r' = List.length r
  /\ (forall j, j <> i -> nth_error r' j = nth_error r j)
  /\ (forall c, nth_error r i = Some c ->
      exists t,
        nth_error r' i = Some (Datetime t)
        /\ match c with
           | Obj text => parse_datetime text = Ok t
           | Datetime t0 => t0 = t
           end).

(** The column that becomes the time column of a raw table: the first of
    [time], [date] and [Date] among its labels. *)
Definition time_label (cols : list string) : option string :=
  find (fun label => Py.mem label cols) ["time"; "date"; "Date"].

Module SearchExamples.

(** A raw-data directory where nothing matches [SPY*.csv] and the
    fallback pattern [QQQ*.csv] matches two files. *)
Definition listing (dir : Path) (pattern : string) : list Path :=
  if Pathlib.eqb dir DataExamples.raw_dir && String.eqb pattern "QQQ*.csv"
  then [ DataExamples.raw_dir // "QQQ_D1.csv";
         DataExamples.raw_dir // "QQQ_H1.csv" ]
  else [].

Definition fs : FileSystem :=
  Fixture.tree (of_string "/proj")
    [ of_string "/proj/requirements.txt";
      DataExamples.raw_dir // "QQQ_D1.csv";
      DataExamples.raw_dir // "QQQ_H1.csv" ]
    listing.

End SearchExamples.

Module PickleExamples.

(** The project root [/proj] holds [models/xgboost_spy_v1.pkl], whose
    pickled object is [None], and a valid booster
    [models/xgboost_spy_v1.json]. *)
Definition fs : FileSystem :=
  Fixture.tree (of_string "/proj")
    [ of_string "/proj/requirements.txt";
      of_string "/proj/models/xgboost_spy_v1.pkl";
      of_string "/proj/models/xgboost_spy_v1.json" ]
    Fixture.no_listing.

Definition load_booster (p : Path) : result string := Ok "booster".

Definition joblib_load (p : Path) : result (option string) := Ok None.

(** The same booster file alone, and a pickle that loads. *)
Definition fs_json : FileSystem :=
  Fixture.tree (of_string "/proj")
    [ of_string "/proj/requirements.txt";
      of_string "/proj/models/xgboost_spy_v1.json" ]
    Fixture.no_listing.

Definition joblib_forest (p : Path) : result (option string) :=
  Ok (Some "forest").

End PickleExamples.

Section ModelClaim.

Variable model_object : Type.
Variable fs : FileSystem.
Variable xgboost_available : bool.
Variable load_booster : Path -> result model_object.
Variable joblib_load : Path -> result (option model_object).

(** The load attempt on a candidate does not fail: the file exists and
    the loader chosen by its suffix returns an object, whatever it is. *)
Definition load_attempt_succeeds (path : Path) : Prop :=
  path_exists fs path = true
  /\ ((suffix path = ".json" /\ xgboost_available = true
       /\ exists xgb_classifier, load_booster path = Ok xgb_classifier)
      \/ (suffix path = ".pkl" /\ exists loaded, joblib_load path = Ok loaded)).

(** The walk in the words of the specification: [load_trained_model]
    returns at the first candidate whose load attempt does not fail, every
    candidate before it having been passed over. *)
Definition returns_at_first_success (model_name : string)
    (model_path : option Path) : Prop :=
  forall before path after,
    possible_paths fs model_name model_path = before ++ path :: after ->
    Forall (skipped model_object fs xgboost_available load_booster
              joblib_load) before ->
    load_attempt_succeeds path ->
    exists returned,
      load_trained_model model_object fs xgboost_available load_booster
        joblib_load model_name model_path = Ok returned.

End ModelClaim.

(* ================================================================== *)
(** * Properties of the path resolver *)
(* ================================================================== *)

Lemma has_project_marker_iff (fs : FileSystem) (dir : Path) :
  has_project_marker fs dir = true <-> contains_marker fs dir.
Proof.
  unfold has_project_marker, contains_marker.
  rewrite !orb_true_iff. tauto.
Qed.

Lemma has_project_marker_false (fs : FileSystem) (dir : Path) :
  ~ contains_marker fs dir -> has_project_marker fs dir = false.
Proof.
  intros H. destruct (has_project_marker fs dir) eqn:E; [|reflexivity].
  apply has_project_marker_iff in E. contradiction.
Qed.

Lemma search_range_ancestors (start : Path) :
  search_range start = map (fun i => ancestor i start) (seq 0 5).
Proof. reflexivity. Qed.

(** [find] returns the first element of a list of ancestors on which the
    test holds. *)
Lemma find_first_ancestor (test : Path -> bool) (start : Path) (n i : nat) :
  i < n ->
  test (ancestor i start) = true ->
  (forall j, j < i -> test (ancestor j start) = false) ->
  find test (map (fun m => ancestor m start) (seq 0 n))
  = Some (ancestor i start).
Proof.
  intros Hi Ht Hbefore.
  assert (G : forall k n', k + n' = n -> k <= i ->
            find test (map (fun m => ancestor m start) (seq k n'))
            = Some (ancestor i start)).
  { intros k n'. revert k. induction n' as [|n' IH]; intros k Hk Hle.
    - lia.
    - simpl. destruct (Nat.eq_dec k i) as [->|Hne].
      + now rewrite Ht.
      + rewrite Hbefore by lia. apply IH; lia. }
  apply (G 0 n); lia.
Qed.

Lemma find_no_ancestor (test : Path -> bool) (start : Path) (n : nat) :
  (forall j, j < n -> test (ancestor j start) = false) ->
  find test (map (fun m => ancestor m start) (seq 0 n)) = None.
Proof.
  intros H.
  assert (G : forall k n', k + n' = n ->
            find test (map (fun m => ancestor m start) (seq k n')) = None).
  { intros k n'. revert k. induction n' as [|n' IH]; intros k Hk.
    - reflexivity.
    - simpl. rewrite H by lia. apply IH. lia. }
  apply (G 0 n). lia.
Qed.

(** C1. [get_project_root] examines the starting directory (the current
    working directory when none is given) and its first four ancestors,
    nearest first, and returns, resolved, the first of them that contains
    [requirements.txt], [data/raw], [models] or [src]; when none of the five
    contains a marker it returns the resolved starting directory. Being a
    total function, it never fails. *)
Theorem get_project_root_first_marked_ancestor
    (fs : FileSystem) (start_path : option Path) :
  let start := match start_path with None => cwd fs | Some p => p end in
  (forall i, i <= 4 ->
     contains_marker fs (ancestor i start) ->
     (forall j, j < i -> ~ contains_marker fs (ancestor j start)) ->
     get_project_root fs start_path = resolve fs (ancestor i start))
  /\ ((forall i, i <= 4 -> ~ contains_marker fs (ancestor i start)) ->
      get_project_root fs start_path = resolve fs start).
Proof.
  intros start. unfold get_project_root. fold start.
  rewrite search_range_ancestors. split.
  - intros i Hi Hmark Hbefore.
    rewrite (find_first_ancestor (has_project_marker fs) start 5 i).
    + reflexivity.
    + lia.
    + now apply has_project_marker_iff.
    + intros j Hj. apply has_project_marker_false. now apply Hbefore.
  - intros Hnone.
    rewrite find_no_ancestor; [reflexivity|].
    intros j Hj. apply has_project_marker_false. apply Hnone. lia.
Qed.

Lemma get_project_root_first_marked_ancestor_witness :
  get_project_root PathExamples.fs None = of_string "/proj"
  /\ get_project_root PathExamples.bare (Some (of_string "/tmp/x"))
     = of_string "/tmp/x".
Proof.
  split.
  - apply (proj1 (get_project_root_first_marked_ancestor PathExamples.fs None) 2).
    + lia.
    + left. reflexivity.
    + intros j Hj [H|[H|[H|H]]];
        destruct j as [|[|j]]; try lia; vm_compute in H; discriminate.
  - apply (proj2 (get_project_root_first_marked_ancestor PathExamples.bare
                    (Some (of_string "/tmp/x")))).
    intros i Hi [H|[H|[H|H]]];
      destruct i as [|[|[|[|[|i]]]]]; try lia; vm_compute in H; discriminate.
Defined.

(* ================================================================== *)
(** * Properties of the configuration loader *)
(* ================================================================== *)

Section DictFacts.

Lemma dict_get_set_same (key : string) (v : Any) (d : dict) :
  dict_get key (dict_set key v d) = Some v.
Proof.
  induction d as [|[k w] d IH]; simpl.
  - now rewrite String.eqb_refl.
  - destruct (String.eqb key k) eqn:E; simpl; rewrite E; auto.
Qed.

Lemma dict_get_set_other (key key' : string) (v : Any) (d : dict) :
  key <> key' -> dict_get key (dict_set key' v d) = dict_get key d.
Proof.
  intros Hne. induction d as [|[k w] d IH]; simpl.
  - apply String.eqb_neq in Hne. now rewrite Hne.
  - destruct (String.eqb key' k) eqn:E; simpl.
    + apply String.eqb_eq in E. subst k.
      apply String.eqb_neq in Hne. now rewrite Hne.
    + now rewrite IH.
Qed.

Lemma dict_get_absent (key : string) (d : dict) :
  ~ In key (keys d) -> dict_get key d = None.
Proof.
  induction d as [|[k w] d IH]; simpl; intros H; [reflexivity|].
  destruct (String.eqb key k) eqn:E.
  - apply String.eqb_eq in E. subst. tauto.
  - apply IH. tauto.
Qed.

Lemma dict_get_present (key : string) (d : dict) :
  In key (keys d) <-> exists v, dict_get key d = Some v.
Proof.
  induction d as [|[k w] d IH]; simpl.
  - split; [tauto | intros [v H]; discriminate].
  - destruct (String.eqb key k) eqn:E.
    + apply String.eqb_eq in E. subst. split; eauto.
    + apply String.eqb_neq in E. rewrite <- IH. split.
      * intros [H|H]; [congruence | assumption].
      * auto.
Qed.

Lemma keys_dict_set (key key' : string) (v : Any) (d : dict) :
  In key (keys (dict_set key' v d)) <-> key = key' \/ In key (keys d).
Proof.
  induction d as [|[k w] d IH]; simpl.
  - split; intros [H|H]; auto; contradiction.
  - destruct (String.eqb key' k) eqn:E; simpl.
    + apply String.eqb_eq in E. subst k. split; intros H.
      * destruct H; auto.
      * destruct H as [H|[H|H]]; auto.
    + rewrite IH. split; intros H.
      * destruct H as [H|[H|H]]; auto.
      * destruct H as [H|[H|H]]; auto.
Qed.

(** The two equations of the loop of [_merge_config]. *)
Lemma merge_config_nil (default : dict) : _merge_config default [] = default.
Proof. reflexivity. Qed.

Lemma merge_config_cons (default : dict) (key : string) (v : Any)
    (user : dict) :
  _merge_config default ((key, v) :: user)
  = _merge_config (merge_item merge_with default key v) user.
Proof. reflexivity. Qed.

Lemma merge_item_entry (result : dict) (key : string) (v : Any) :
  merge_item merge_with result key v
  = dict_set key (merged_entry (dict_get key result) v) result.
Proof.
  unfold merge_item, merged_entry.
  destruct (dict_get key result) as [[]|]; try reflexivity.
  destruct v; reflexivity.
Qed.

Lemma dict_get_merge (user default : dict) (key : string) :
  NoDup (keys user) ->
  dict_get key (_merge_config default user)
  = match dict_get key user with
    | Some v => Some (merged_entry (dict_get key default) v)
    | None => dict_get key default
    end.
Proof.
  revert default.
  induction user as [|[k v] user IH]; intros default Huniq.
  - reflexivity.
  - rewrite merge_config_cons, merge_item_entry.
    simpl in Huniq. inversion Huniq as [|? ? Hfresh Huniq']; subst.
    rewrite IH by assumption. simpl.
    destruct (String.eqb key k) eqn:E.
    + apply String.eqb_eq in E. subst k.
      rewrite (dict_get_absent key user Hfresh).
      apply dict_get_set_same.
    + apply String.eqb_neq in E.
      rewrite (dict_get_set_other key k) by assumption.
      reflexivity.
Qed.

Lemma keys_merge (user default : dict) (key : string) :
  In key (keys (_merge_config default user))
  <-> In key (keys default) \/ In key (keys user).
Proof.
  revert default.
  induction user as [|[k v] user IH]; intros default.
  - rewrite merge_config_nil. simpl. tauto.
  - rewrite merge_config_cons, merge_item_entry, IH, keys_dict_set.
    simpl. split; intros H.
    + destruct H as [[H|H]|H]; auto.
    + destruct H as [H|[H|H]]; auto.
Qed.

End DictFacts.

(** C2. Merging a user mapping over the defaults: a key the user does not
    give keeps its default value; a key whose default and user values are
    both mappings holds their recursive merge; any other key the user
    gives holds the user's value as it is. In particular, overriding
    [trading.symbol] with [QQQ] changes that entry and nothing else of the
    default configuration. A Python [dict] holds each key once, which is
    the hypothesis on the user mapping. *)
Theorem merge_config_rule (default user : dict)
    (Huniq : NoDup (keys user)) :
  (forall key, dict_get key user = None ->
     dict_get key (_merge_config default user) = dict_get key default)
  /\ (forall key nested user_nested,
        dict_get key default = Some (VDict nested) ->
        dict_get key user = Some (VDict user_nested) ->
        dict_get key (_merge_config default user)
        = Some (VDict (_merge_config nested user_nested)))
  /\ (forall key v,
        dict_get key user = Some v ->
        is_dict v = false
        \/ (forall nested, dict_get key default <> Some (VDict nested)) ->
        dict_get key (_merge_config default user) = Some v)
  /\ (_merge_config _get_default_config ConfigExamples.user_qqq
      = ConfigExamples.default_with_qqq
      /\ get_config_value
           (VDict (_merge_config _get_default_config ConfigExamples.user_qqq))
           "trading.symbol" VNone = VStr "QQQ").
Proof.
  repeat split.
  - intros key Hu. rewrite dict_get_merge, Hu by assumption. reflexivity.
  - intros key nested user_nested Hd Hu.
    rewrite dict_get_merge, Hu, Hd by assumption. reflexivity.
  - intros key v Hu Hother.
    rewrite dict_get_merge, Hu by assumption. f_equal.
    unfold merged_entry. destruct Hother as [Hv|Hd].
    + destruct (dict_get key default) as [[]|]; try reflexivity.
      destruct v; try reflexivity. discriminate.
    + destruct (dict_get key default) as [[]|] eqn:E; try reflexivity.
      exfalso. eapply Hd. reflexivity.
Qed.

Lemma merge_config_rule_witness :
  dict_get "features" (_merge_config _get_default_config ConfigExamples.user_qqq)
  = dict_get "features" _get_default_config
  /\ dict_get "trading" (_merge_config _get_default_config ConfigExamples.user_qqq)
     = Some (VDict (_merge_config
                      [ ("symbol", VStr "SPY"); ("timeframe", VStr "D1");
                        ("lookback_days", VInt 5000) ]
                      [ ("symbol", VStr "QQQ") ])).
Proof.
  assert (Huniq : NoDup (keys ConfigExamples.user_qqq)).
  { repeat constructor. simpl. tauto. }
  destruct (merge_config_rule _get_default_config ConfigExamples.user_qqq Huniq)
    as (Hkeep & Hnested & _).
  split.
  - apply Hkeep. reflexivity.
  - apply Hnested; reflexivity.
Defined.

Section SplitFacts.

Variable sep : ascii.

Lemma split_not_nil (s : string) : Py.split sep s <> [].
Proof.
  destruct s as [|c s]; simpl; [discriminate|].
  destruct (Ascii.eqb c sep); [discriminate|].
  destruct (Py.split sep s); discriminate.
Qed.

Lemma join_cons (piece : string) (rest : list string) :
  rest <> [] ->
  Py.join sep (piece :: rest) = (piece ++ String sep (Py.join sep rest))%string.
Proof. destruct rest; [contradiction|reflexivity]. Qed.

Lemma join_push (c : ascii) (piece : string) (rest : list string) :
  Py.join sep (String c piece :: rest)
  = String c (Py.join sep (piece :: rest)).
Proof. destruct rest; reflexivity. Qed.

Lemma join_split (s : string) : Py.join sep (Py.split sep s) = s.
Proof.
  induction s as [|c s IH]; [reflexivity|]. simpl.
  destruct (Ascii.eqb c sep) eqn:E.
  - apply Ascii.eqb_eq in E. subst c.
    rewrite join_cons by apply split_not_nil. simpl. now rewrite IH.
  - destruct (Py.split sep s) as [|piece pieces] eqn:Es.
    + now apply split_not_nil in Es.
    + rewrite join_push. now rewrite IH.
Qed.

Lemma split_pieces_without_sep (s : string) :
  Forall (fun piece => Py.contains_char sep piece = false) (Py.split sep s).
Proof.
  induction s as [|c s IH]; simpl.
  - repeat constructor.
  - destruct (Ascii.eqb c sep) eqn:E.
    + constructor; [reflexivity|assumption].
    + destruct (Py.split sep s) as [|piece pieces].
      * repeat constructor. simpl.
        rewrite Ascii.eqb_sym, E. reflexivity.
      * inversion IH; subst. constructor; [|assumption].
        simpl. rewrite Ascii.eqb_sym, E. assumption.
Qed.

End SplitFacts.

Lemma walk_keys_reaches (config : Any) (keys : list string) (v default : Any) :
  reaches config keys v -> walk_keys config keys default = v.
Proof.
  induction 1 as [v|d key keys v v' Hget _ IH]; simpl.
  - reflexivity.
  - now rewrite Hget.
Qed.

Lemma walk_keys_stuck (config : Any) (before : list string) (key : string)
    (after : list string) (v default : Any) :
  reaches config before v ->
  cannot_index v key ->
  walk_keys config (before ++ key :: after) default = default.
Proof.
  induction 1 as [v|d k keys v v' Hget _ IH]; simpl; intros Hstuck.
  - destruct v; try reflexivity. simpl in Hstuck. now rewrite Hstuck.
  - rewrite Hget. now apply IH.
Qed.

(** Every walk either reaches a value or gets stuck at some key. *)
Lemma reaches_or_stuck (keys : list string) (config : Any) :
  (exists v, reaches config keys v)
  \/ (exists before key after v,
        keys = before ++ key :: after
        /\ reaches config before v /\ cannot_index v key).
Proof.
  revert config. induction keys as [|key keys IH]; intros config.
  - left. exists config. constructor.
  - destruct config as [| | | | | |d];
      try (right; exists [], key, keys; eexists; repeat split; constructor).
    destruct (dict_get key d) as [v|] eqn:Hget.
    + destruct (IH v) as [[v' Hv']|(before & k & after & w & -> & Hw & Hs)].
      * left. exists v'. econstructor; eassumption.
      * right. exists (key :: before), k, after, w. repeat split.
        -- econstructor; eassumption.
        -- assumption.
    + right. exists [], key, keys, (VDict d). repeat split.
      * constructor.
      * exact Hget.
Qed.

(** C4. [get_config_value] splits the path on ['.'] (the pieces joined by
    ['.'] give the path back and contain no ['.']), then walks the nested
    mappings key by key: when every key is found it returns the value
    reached after the last one, and as soon as the value to be indexed is
    not a mapping or lacks the key it returns the default. On
    [{"a": {"b": 5}}] the path [a.b] with default 0 gives 5; on
    [{"a": {}}] the path [a.b.c] with default -1 gives -1. *)
Theorem get_config_value_walk
    (config : Any) (key_path : string) (default : Any) :
  let keys := Py.split "." key_path in
  (Py.join "." keys = key_path
   /\ Forall (fun key => Py.contains_char "." key = false) keys)
  /\ (forall v, reaches config keys v ->
        get_config_value config key_path default = v)
  /\ (forall before key after v,
        keys = before ++ key :: after ->
        reaches config before v ->
        cannot_index v key ->
        get_config_value config key_path default = default)
  /\ get_config_value ConfigExamples.a_b_5 "a.b" (VInt 0) = VInt 5
  /\ get_config_value ConfigExamples.a_empty "a.b.c" (VInt (-1)) = VInt (-1).
Proof.
  intros keys. split; [split|split; [|split; [|split]]].
  - apply join_split.
  - apply split_pieces_without_sep.
  - intros v Hv. now apply walk_keys_reaches.
  - intros before key after v Hkeys Hv Hstuck.
    unfold get_config_value. fold keys. rewrite Hkeys.
    eapply walk_keys_stuck; eassumption.
  - reflexivity.
  - reflexivity.
Qed.

Lemma get_config_value_walk_witness :
  get_config_value (VDict _get_default_config) "features.rsi_period" VNone
  = VInt 14
  /\ get_config_value (VDict _get_default_config) "trading.symbol.name"
       (VStr "n/a") = VStr "n/a".
Proof.
  split.
  - apply (proj1 (proj2 (get_config_value_walk (VDict _get_default_config)
                           "features.rsi_period" VNone))).
    econstructor; [reflexivity|]. econstructor; [reflexivity|]. constructor.
  - apply (proj1 (proj2 (proj2 (get_config_value_walk
                                  (VDict _get_default_config)
                                  "trading.symbol.name" (VStr "n/a"))))
             ["trading"; "symbol"] "name" [] (VStr "SPY")).
    + reflexivity.
    + econstructor; [reflexivity|]. econstructor; [reflexivity|]. constructor.
    + exact I.
Defined.

Section LoadConfigFacts.

Variable fs : FileSystem.
Variable yaml_safe_load : Path -> result Any.

(** A configuration that was loaded is the defaults, or the defaults
    merged with some user mapping. *)
Lemma load_config_at_shape (path : Path) (config : dict) :
  load_config_at fs yaml_safe_load path = Ok config ->
  exists user, config = _merge_config _get_default_config user.
Proof.
  unfold load_config_at.
  destruct (negb (path_exists fs path)).
  - intros [= <-]. exists []. reflexivity.
  - destruct (yaml_safe_load path) as [loaded|e]; simpl; [|discriminate].
    destruct (truthy loaded).
    + destruct loaded; try discriminate.
      intros [= <-]. eexists. reflexivity.
    + intros [= <-]. exists []. reflexivity.
Qed.

Lemma load_config_shape (config_path : option Path) (config : dict) :
  load_config fs yaml_safe_load config_path = Ok config ->
  exists user, config = _merge_config _get_default_config user.
Proof.
  unfold load_config. destruct config_path as [path|].
  - apply load_config_at_shape.
  - destruct (find (path_exists fs) (possible_config_paths fs)) as [path|].
    + apply load_config_at_shape.
    + intros [= <-]. exists []. reflexivity.
Qed.

Lemma load_config_at_empty (path : Path) :
  path_exists fs path = true ->
  yaml_safe_load path = Ok VNone ->
  load_config_at fs yaml_safe_load path = Ok _get_default_config.
Proof.
  intros Hex Hload. unfold load_config_at. rewrite Hex, Hload. reflexivity.
Qed.

End LoadConfigFacts.

(** C10. The top-level keys of a merge are exactly the keys of the defaults
    together with the keys of the user mapping: no key of either side is
    dropped. Hence every configuration that [load_config] returns has every
    top-level section of the default configuration. *)
Theorem merge_config_keys_union (default user : dict) :
  (forall key,
     In key (keys (_merge_config default user))
     <-> In key (keys default) \/ In key (keys user))
  /\ (forall fs yaml_safe_load config_path config,
        load_config fs yaml_safe_load config_path = Ok config ->
        forall section,
          In section (keys _get_default_config) -> In section (keys config)).
Proof.
  split.
  - intros key. apply keys_merge.
  - intros fs yaml_safe_load config_path config Hload section Hin.
    destruct (load_config_shape _ _ _ _ Hload) as [u ->].
    apply keys_merge. now left.
Qed.

Lemma merge_config_keys_union_witness :
  In "backtest"
     (keys (_merge_config _get_default_config ConfigExamples.user_qqq))
  /\ forall config,
       load_config ConfigExamples.fs ConfigExamples.yaml_safe_load None
       = Ok config ->
       In "model" (keys config).
Proof.
  split.
  - apply (proj1 (merge_config_keys_union _get_default_config
                    ConfigExamples.user_qqq)).
    left. simpl. tauto.
  - intros config Hload.
    apply (proj2 (merge_config_keys_union [] []) _ _ _ _ Hload).
    simpl. tauto.
Defined.

(** C3. Called without a path, [load_config] looks at [config.yaml],
    [config/config.yaml] and [config/config.example.yaml] under the project
    root, in this order, and loads the first one that exists exactly as if
    it had been passed explicitly. When none of the three exists, or when
    the chosen file is an empty document, the result is the default
    configuration. *)
Theorem load_config_probes_three_locations
    (fs : FileSystem) (yaml_safe_load : Path -> result Any) :
  let project_root := get_project_root fs None in
  let first := project_root // "config.yaml" in
  let second := project_root // "config" // "config.yaml" in
  let third := project_root // "config" // "config.example.yaml" in
  let load := load_config fs yaml_safe_load in
  (path_exists fs first = true -> load None = load (Some first))
  /\ (path_exists fs first = false -> path_exists fs second = true ->
      load None = load (Some second))
  /\ (path_exists fs first = false -> path_exists fs second = false ->
      path_exists fs third = true ->
      load None = load (Some third))
  /\ (path_exists fs first = false -> path_exists fs second = false ->
      path_exists fs third = false ->
      load None = Ok _get_default_config)
  /\ (forall chosen,
        find (path_exists fs) [first; second; third] = Some chosen ->
        yaml_safe_load chosen = Ok VNone ->
        load None = Ok _get_default_config).
Proof.
  intros project_root first second third load.
  unfold load, load_config, possible_config_paths.
  fold project_root. fold first. fold second. fold third.
  repeat split.
  - intros H1. simpl. now rewrite H1.
  - intros H1 H2. simpl. now rewrite H1, H2.
  - intros H1 H2 H3. simpl. now rewrite H1, H2, H3.
  - intros H1 H2 H3. simpl. now rewrite H1, H2, H3.
  - intros chosen Hfind Hempty. rewrite Hfind.
    apply load_config_at_empty; [|assumption].
    apply find_some in Hfind. tauto.
Qed.

Lemma load_config_probes_three_locations_witness :
  load_config ConfigExamples.fs ConfigExamples.yaml_safe_load None
  = Ok ConfigExamples.default_with_qqq
  /\ load_config ConfigExamples.fs_empty ConfigExamples.yaml_empty None
     = Ok _get_default_config
  /\ load_config ConfigExamples.fs_none ConfigExamples.yaml_empty None
     = Ok _get_default_config.
Proof.
  split; [|split].
  - rewrite (proj1 (proj2 (proj2 (load_config_probes_three_locations
               ConfigExamples.fs ConfigExamples.yaml_safe_load))));
      reflexivity.
  - apply (proj2 (proj2 (proj2 (proj2 (load_config_probes_three_locations
              ConfigExamples.fs_empty ConfigExamples.yaml_empty))))
             (of_string "/proj/config.yaml")); reflexivity.
  - apply (proj1 (proj2 (proj2 (proj2 (load_config_probes_three_locations
              ConfigExamples.fs_none ConfigExamples.yaml_empty)))));
      reflexivity.
Defined.

(** C9. Given an explicit path that does not exist, [load_config] returns
    the default configuration; it raises nothing. *)
Theorem load_config_missing_explicit_path
    (fs : FileSystem) (yaml_safe_load : Path -> result Any)
    (config_path : Path) :
  path_exists fs config_path = false ->
  load_config fs yaml_safe_load (Some config_path) = Ok _get_default_config.
Proof.
  intros Hmissing. unfold load_config, load_config_at.
  now rewrite Hmissing.
Qed.

Lemma load_config_missing_explicit_path_witness :
  load_config ConfigExamples.fs ConfigExamples.yaml_safe_load
    (Some (of_string "/proj/settings.yaml"))
  = Ok _get_default_config.
Proof.
  apply (load_config_missing_explicit_path ConfigExamples.fs
           ConfigExamples.yaml_safe_load (of_string "/proj/settings.yaml")).
  reflexivity.
Defined.

(* ================================================================== *)
(** * Properties of the data loader *)
(* ================================================================== *)

(** In [H : (x <- r ;; k) = Ok _], the first step [r] returned a value:
    name it [x] and keep the equation as [E]. *)
Ltac bind_ok H x E :=
  match type of H with
  | bind ?r _ = Ok _ =>
      destruct r as [x|?] eqn:E; cbn [bind] in H; [|discriminate H]
  end.

Lemma index_of_absent (label : string) (cols : list string) :
  Py.mem label cols = false -> index_of label cols = None.
Proof.
  unfold Py.mem. induction cols as [|c cols IH]; simpl; [reflexivity|].
  destruct (String.eqb label c); simpl; [discriminate|].
  intros H. now rewrite IH.
Qed.

Lemma index_of_present (label : string) (cols : list string) :
  Py.mem label cols = true -> exists i, index_of label cols = Some i.
Proof.
  unfold Py.mem. induction cols as [|c cols IH]; simpl; [discriminate|].
  destruct (String.eqb label c); simpl; [eauto|].
  intros H. destruct (IH H) as [i ->]. simpl. eauto.
Qed.

Lemma sort_values_unknown_label (label : string) (df : DataFrame) :
  Py.mem label (columns df) = false ->
  sort_values label df = Raise (KeyError label).
Proof.
  intros H. unfold sort_values. now rewrite index_of_absent.
Qed.

(** C5. A raw CSV without a [time], [date] or [Date] column never reaches
    the validation of [load_raw_data]: the sort by [time] that precedes it
    raises [KeyError('time')], so the failure is not the validation error
    listing [time] among the missing columns. *)
Theorem load_raw_data_without_time_column
    (fs : FileSystem) (read_csv : Path -> result DataFrame)
    (parse_datetime : string -> result (option Z))
    (filename : option string) (pattern symbol : string)
    (csv_path : Path) (df : DataFrame) :
  raw_csv_path fs filename pattern symbol = Ok csv_path ->
  read_csv csv_path = Ok df ->
  Py.mem "time" (columns df) = false ->
  Py.mem "date" (columns df) = false ->
  Py.mem "Date" (columns df) = false ->
  load_raw_data fs read_csv parse_datetime filename pattern symbol
  = Raise (KeyError "time").
Proof.
  intros Hpath Hread Htime Hdate HDate.
  unfold load_raw_data, ensure_time_column.
  rewrite Hpath. simpl. rewrite Hread. simpl.
  rewrite Htime, Hdate, HDate. simpl.
  now rewrite sort_values_unknown_label.
Qed.

Lemma load_raw_data_without_time_column_witness :
  load_raw_data DataExamples.fs DataExamples.read_csv
    DataExamples.parse_datetime (Some "no_time.csv") "SPY*.csv" "SPY"
  = Raise (KeyError "time").
Proof.
  apply (load_raw_data_without_time_column DataExamples.fs
           DataExamples.read_csv DataExamples.parse_datetime
           (Some "no_time.csv") "SPY*.csv" "SPY"
           (of_string "/proj/data/raw/no_time.csv") DataExamples.no_time);
    reflexivity.
Defined.

(** Once the table has a [time] column the sort succeeds and the
    validation decides: the error lists exactly the required columns that
    the table lacks, and there is no error when it lacks none. *)
Lemma load_raw_data_validation
    (fs : FileSystem) (read_csv : Path -> result DataFrame)
    (parse_datetime : string -> result (option Z))
    (filename : option string) (pattern symbol : string)
    (csv_path : Path) (df df1 : DataFrame) :
  raw_csv_path fs filename pattern symbol = Ok csv_path ->
  read_csv csv_path = Ok df ->
  ensure_time_column parse_datetime df = Ok df1 ->
  Py.mem "time" (columns df1) = true ->
  exists sorted,
    sort_values "time" df1 = Ok sorted
    /\ columns sorted = columns df1
    /\ load_raw_data fs read_csv parse_datetime filename pattern symbol
       = match filter (fun col => negb (Py.mem col (columns df1)))
                      required_cols with
         | [] => Ok sorted
         | missing_cols =>
             Raise (ValueError [Text "Missing required columns: ";
                                ListRepr missing_cols])
         end.
Proof.
  intros Hpath Hread Hnorm Htime.
  destruct (index_of_present _ _ Htime) as [i Hi].
  exists {| columns := columns df1; rows := sort_rows i (rows df1) |}.
  assert (Hsort : sort_values "time" df1
                  = Ok {| columns := columns df1;
                          rows := sort_rows i (rows df1) |}).
  { unfold sort_values. now rewrite Hi. }
  split; [assumption|]. split; [reflexivity|].
  unfold load_raw_data. rewrite Hpath. cbn [bind]. rewrite Hread. cbn [bind].
  rewrite Hnorm. cbn [bind]. rewrite Hsort. cbn [bind columns].
  destruct (filter _ required_cols); reflexivity.
Qed.

(** With a time column present the validation is reached: a raw CSV that
    lacks only [close] fails with the validation error naming [close]. *)
Example load_raw_data_missing_close :
  load_raw_data DataExamples.fs DataExamples.read_csv
    DataExamples.parse_datetime (Some "no_close.csv") "SPY*.csv" "SPY"
  = Raise (ValueError [Text "Missing required columns: "; ListRepr ["close"]]).
Proof. reflexivity. Qed.

(** A raw CSV with [Date,open,high,low,close], found by the default
    pattern, loads with the column renamed and the rows in order. *)
Example load_raw_data_renames_and_sorts :
  load_raw_data DataExamples.fs DataExamples.read_csv
    DataExamples.parse_datetime None "SPY*.csv" "SPY"
  = Ok {| columns := ["time"; "open"; "high"; "low"; "close"];
          rows := [ [Datetime (Some 0%Z); Obj "1"; Obj "2"; Obj "0"; Obj "1"];
                    [Datetime (Some 1%Z); Obj "2"; Obj "3"; Obj "1"; Obj "2"];
                    [Datetime (Some 2%Z); Obj "3"; Obj "4"; Obj "2"; Obj "3"] ] |}.
Proof. reflexivity. Qed.

(** C6. A processed CSV that exists and parses but has no [time] column is
    not returned as it is: the unconditional sort by [time] raises
    [KeyError('time')]. *)
Theorem load_processed_data_without_time_column
    (fs : FileSystem) (read_csv : Path -> result DataFrame)
    (parse_datetime : string -> result (option Z))
    (filename : string) (df : DataFrame) :
  path_exists fs (resolve_data_path fs filename "processed") = true ->
  read_csv (resolve_data_path fs filename "processed") = Ok df ->
  Py.mem "time" (columns df) = false ->
  load_processed_data fs read_csv parse_datetime filename
  = Raise (KeyError "time").
Proof.
  intros Hexists Hread Htime.
  unfold load_processed_data. rewrite Hexists. simpl. rewrite Hread. simpl.
  rewrite Htime. simpl.
  now rewrite sort_values_unknown_label.
Qed.

Lemma load_processed_data_without_time_column_witness :
  load_processed_data DataExamples.fs DataExamples.read_csv
    DataExamples.parse_datetime "features_only.csv"
  = Raise (KeyError "time").
Proof.
  apply (load_processed_data_without_time_column DataExamples.fs
           DataExamples.read_csv DataExamples.parse_datetime
           "features_only.csv" DataExamples.features_only);
    reflexivity.
Defined.

Section SortFacts.

Lemma key_leb_le (a b : option Z) : key_leb a b = true <-> time_le a b.
Proof.
  destruct a as [x|], b as [y|]; simpl; try tauto.
  - apply Z.leb_le.
  - split; [discriminate|contradiction].
Qed.

Lemma key_leb_gt (a b : option Z) : key_leb a b = false -> time_le b a.
Proof.
  destruct a as [x|], b as [y|]; simpl; try discriminate; try tauto.
  intros H. apply Z.leb_gt in H. lia.
Qed.

Lemma time_le_trans (a b c : option Z) :
  time_le a b -> time_le b c -> time_le a c.
Proof.
  destruct a, b, c; simpl; try tauto. lia.
Qed.

Variable i : nat.

Lemma insert_row_in (r x : row) (sorted : list row) :
  In x (insert_row i r sorted) <-> x = r \/ In x sorted.
Proof.
  induction sorted as [|r' rest IH]; simpl.
  - split; intros [H|H]; auto; contradiction.
  - destruct (key_leb (sort_key i r) (sort_key i r')); simpl.
    + split; intros [H|H]; auto.
    + rewrite IH. split; intros H.
      * destruct H as [H|[H|H]]; auto.
      * destruct H as [H|[H|H]]; auto.
Qed.

Lemma sort_rows_in (x : row) (rs : list row) :
  In x (sort_rows i rs) <-> In x rs.
Proof.
  induction rs as [|r rs IH]; simpl; [tauto|].
  rewrite insert_row_in, IH. split; intros [H|H]; auto.
Qed.

Lemma insert_row_sorted (r : row) (sorted : list row) :
  StronglySorted time_le (map (sort_key i) sorted) ->
  StronglySorted time_le (map (sort_key i) (insert_row i r sorted)).
Proof.
  induction sorted as [|r' rest IH]; simpl; intros Hs.
  - repeat constructor.
  - inversion Hs as [|? ? Hrest Hall]; subst.
    destruct (key_leb (sort_key i r) (sort_key i r')) eqn:E; simpl.
    + apply key_leb_le in E. constructor; [assumption|].
      constructor; [assumption|].
      eapply Forall_impl; [|exact Hall].
      intros k Hk. eapply time_le_trans; eassumption.
    + apply key_leb_gt in E. constructor; [now apply IH|].
      apply Forall_forall. intros k Hk.
      apply in_map_iff in Hk. destruct Hk as (x & <- & Hx).
      apply insert_row_in in Hx. destruct Hx as [->|Hx]; [assumption|].
      rewrite Forall_forall in Hall. apply Hall.
      apply in_map. assumption.
Qed.

Lemma sort_rows_sorted (rs : list row) :
  StronglySorted time_le (map (sort_key i) (sort_rows i rs)).
Proof.
  induction rs as [|r rs IH]; simpl.
  - constructor.
  - now apply insert_row_sorted.
Qed.

End SortFacts.

Section FrameFacts.

Variable parse_datetime : string -> result (option Z).

Lemma convert_at_datetime (r : row) :
  forall i r' c,
    convert_at parse_datetime i r = Ok r' ->
    nth_error r' i = Some c ->
    exists t, c = Datetime t.
Proof.
  induction r as [|c0 rest IH]; intros i r' c Hconv Hnth.
  - destruct i; simpl in Hconv; injection Hconv as <-; discriminate.
  - destruct i as [|i]; simpl in Hconv.
    + destruct c0 as [text|t]; simpl in Hconv.
      * destruct (parse_datetime text) as [t|e]; simpl in Hconv;
          [|discriminate].
        injection Hconv as <-. simpl in Hnth. injection Hnth as <-. eauto.
      * injection Hconv as <-. simpl in Hnth. injection Hnth as <-. eauto.
    + destruct (convert_at parse_datetime i rest) as [rest'|e] eqn:E;
        simpl in Hconv; [|discriminate].
      injection Hconv as <-. simpl in Hnth. eapply IH; eassumption.
Qed.

Lemma map_result_in {A B : Type} (f : A -> result B) (xs : list A) :
  forall ys y,
    map_result f xs = Ok ys -> In y ys ->
    exists x, In x xs /\ f x = Ok y.
Proof.
  induction xs as [|x xs IH]; simpl; intros ys y Hmap Hin.
  - injection Hmap as <-. contradiction.
  - destruct (f x) as [y0|e] eqn:Ef; simpl in Hmap; [|discriminate].
    destruct (map_result f xs) as [ys0|e] eqn:Em; simpl in Hmap;
      [|discriminate].
    injection Hmap as <-. destruct Hin as [<-|Hin].
    + eauto.
    + destruct (IH ys0 y eq_refl Hin) as (x' & Hx' & Hf). eauto.
Qed.

Lemma to_datetime_aware (label : string) (df df' : DataFrame) :
  to_datetime parse_datetime label df = Ok df' ->
  columns df' = columns df
  /\ exists i, index_of label (columns df) = Some i
               /\ tz_aware_column i df'.
Proof.
  unfold to_datetime.
  destruct (index_of label (columns df)) as [i|]; [|discriminate].
  destruct (map_result (convert_at parse_datetime i) (rows df))
    as [rows'|e] eqn:Em; simpl; [|discriminate].
  intros [= <-]. split; [reflexivity|]. exists i. split; [reflexivity|].
  intros r c Hr Hc. simpl in Hr.
  destruct (map_result_in _ _ _ _ Em Hr) as (r0 & _ & Hconv).
  eapply convert_at_datetime; eassumption.
Qed.

Lemma index_of_rename (old new : string) (cols : list string) :
  Py.mem new cols = false ->
  index_of new (map (fun c => if String.eqb c old then new else c) cols)
  = index_of old cols.
Proof.
  unfold Py.mem. induction cols as [|c cols IH]; simpl; [reflexivity|].
  intros H. apply orb_false_iff in H. destruct H as [Hc Hrest].
  rewrite (String.eqb_sym old c).
  destruct (String.eqb c old).
  - now rewrite String.eqb_refl.
  - rewrite Hc. now rewrite IH.
Qed.

(** Sorting a table whose [time] column is timezone-aware gives a
    chronological table. *)
Lemma sort_values_chronological (df out : DataFrame) (i : nat) :
  index_of "time" (columns df) = Some i ->
  tz_aware_column i df ->
  sort_values "time" df = Ok out ->
  chronological out.
Proof.
  intros Hi Haware. unfold sort_values. rewrite Hi. intros [= <-].
  exists i. split; [assumption|]. split.
  - intros r c Hr. simpl in Hr. apply sort_rows_in in Hr.
    now apply Haware.
  - apply sort_rows_sorted.
Qed.

(** Converting column [old] and renaming it to [time]. *)
Lemma to_datetime_rename_aware (old : string) (df df' : DataFrame) :
  Py.mem "time" (columns df) = false ->
  to_datetime parse_datetime old df = Ok df' ->
  exists i, index_of "time" (columns (rename old "time" df')) = Some i
            /\ tz_aware_column i (rename old "time" df').
Proof.
  intros Hfresh Hconv.
  destruct (to_datetime_aware _ _ _ Hconv) as (Hcols & i & Hi & Haware).
  exists i. split.
  - simpl. rewrite Hcols, index_of_rename; assumption.
  - exact Haware.
Qed.

End FrameFacts.

(** What the block "Ensure time column is datetime" leaves behind: a
    timezone-aware [time] column, or the table as it was when it has no
    time column under any of the three names. *)
Lemma ensure_time_column_aware
    (parse_datetime : string -> result (option Z)) (df df1 : DataFrame) :
  ensure_time_column parse_datetime df = Ok df1 ->
  (exists i, index_of "time" (columns df1) = Some i /\ tz_aware_column i df1)
  \/ (df1 = df /\ Py.mem "time" (columns df) = false).
Proof.
  unfold ensure_time_column. intros Hnorm.
  destruct (Py.mem "time" (columns df)) eqn:Htime.
  - left. destruct (to_datetime_aware _ _ _ _ Hnorm) as (Hcols & i & Hi & Ha).
    exists i. now rewrite Hcols.
  - destruct (Py.mem "date" (columns df)).
    + bind_ok Hnorm df2 E. injection Hnorm as <-. left.
      eapply to_datetime_rename_aware; eassumption.
    + destruct (Py.mem "Date" (columns df)).
      * bind_ok Hnorm df2 E. injection Hnorm as <-. left.
        eapply to_datetime_rename_aware; eassumption.
      * injection Hnorm as <-. right. auto.
Qed.

(** C8. Every table that [load_raw_data] or [load_processed_data] returns
    has a [time] column holding timezone-aware timestamps, and its rows are
    in ascending order of that column (missing timestamps last). *)
Theorem loaded_tables_are_chronological
    (fs : FileSystem) (read_csv : Path -> result DataFrame)
    (parse_datetime : string -> result (option Z))
    (filename : option string) (pattern symbol processed_name : string)
    (out : DataFrame) :
  load_raw_data fs read_csv parse_datetime filename pattern symbol = Ok out
  \/ load_processed_data fs read_csv parse_datetime processed_name = Ok out ->
  chronological out.
Proof.
  intros [Hraw|Hprocessed].
  - unfold load_raw_data in Hraw.
    bind_ok Hraw csv_path Epath. bind_ok Hraw df Eread.
    bind_ok Hraw df1 Enorm. bind_ok Hraw sorted Esort.
    match type of Hraw with
    | match ?missing_cols with [] => _ | _ :: _ => _ end = _ =>
        destruct missing_cols
    end; [|discriminate].
    injection Hraw as <-.
    destruct (ensure_time_column_aware _ _ _ Enorm)
      as [(i & Hi & Ha)|[-> Htime]].
    + eapply sort_values_chronological; eassumption.
    + rewrite sort_values_unknown_label in Esort by assumption.
      discriminate.
  - unfold load_processed_data in Hprocessed.
    destruct (negb (path_exists fs
                      (resolve_data_path fs processed_name "processed")));
      [discriminate|].
    bind_ok Hprocessed df Eread.
    destruct (Py.mem "time" (columns df)) eqn:Htime.
    + bind_ok Hprocessed df1 Econv. bind_ok Hprocessed sorted Esort.
      injection Hprocessed as <-.
      destruct (to_datetime_aware _ _ _ _ Econv) as (Hcols & i & Hi & Ha).
      eapply sort_values_chronological; [|exact Ha|exact Esort].
      now rewrite Hcols.
    + cbn [bind] in Hprocessed.
      rewrite sort_values_unknown_label in Hprocessed by assumption.
      discriminate.
Qed.

Lemma loaded_tables_are_chronological_witness :
  (exists out,
     load_raw_data DataExamples.fs DataExamples.read_csv
       DataExamples.parse_datetime None "SPY*.csv" "SPY" = Ok out
     /\ chronological out)
  /\ (exists out,
        load_processed_data DataExamples.fs DataExamples.read_csv
          DataExamples.parse_datetime "spy_featured.csv" = Ok out
        /\ chronological out).
Proof.
  split; eexists; (split; [reflexivity|]).
  - apply (loaded_tables_are_chronological DataExamples.fs
             DataExamples.read_csv DataExamples.parse_datetime
             None "SPY*.csv" "SPY" "spy_featured.csv").
    left. reflexivity.
  - apply (loaded_tables_are_chronological DataExamples.fs
             DataExamples.read_csv DataExamples.parse_datetime
             None "SPY*.csv" "SPY" "spy_featured.csv").
    right. reflexivity.
Defined.

(* ================================================================== *)
(** * Properties of the model loader *)
(* ================================================================== *)

Section ModelFacts.

Variable model_object : Type.
Variable fs : FileSystem.
Variable xgboost_available : bool.
Variable load_booster : Path -> result model_object.
Variable joblib_load : Path -> result (option model_object).

Let passed_over :=
  skipped model_object fs xgboost_available load_booster joblib_load.
Let loading :=
  loads model_object fs xgboost_available load_booster joblib_load.
Let walk :=
  try_paths model_object fs xgboost_available load_booster joblib_load.

Lemma try_paths_skip (path : Path) (rest : list Path) :
  passed_over path -> walk (path :: rest) = walk rest.
Proof.
  unfold passed_over, skipped, walk. simpl.
  intros [H|[[Hs Hx]|[[Hs [e He]]|[[Hs [e He]]|[Hj Hp]]]]].
  - now rewrite H.
  - rewrite Hs, Hx. simpl. now destruct (path_exists fs path).
  - rewrite Hs, He. simpl.
    destruct (path_exists fs path), xgboost_available; reflexivity.
  - rewrite Hs, He. simpl. now destruct (path_exists fs path).
  - apply String.eqb_neq in Hj, Hp. rewrite Hj, Hp.
    now destruct (path_exists fs path).
Qed.

Lemma try_paths_load (path : Path) (rest : list Path)
    (model : model_object) (model_type : string) :
  loading path model model_type ->
  walk (path :: rest) = (Some model, Some model_type).
Proof.
  unfold loading, loads, walk. simpl.
  intros [Hex [(Hs & Hx & Hl & ->)|(Hs & Hl & ->)]].
  - now rewrite Hex, Hs, Hx, Hl.
  - now rewrite Hex, Hs, Hl.
Qed.

Lemma try_paths_first_loading (before : list Path) (path : Path)
    (after : list Path) (model : model_object) (model_type : string) :
  Forall passed_over before ->
  loading path model model_type ->
  walk (before ++ path :: after) = (Some model, Some model_type).
Proof.
  intros Hskip Hload. induction Hskip as [|p before Hp _ IH]; simpl.
  - now apply try_paths_load.
  - rewrite <- IH. now apply try_paths_skip.
Qed.

Lemma try_paths_exhausted (paths : list Path) :
  Forall passed_over paths -> walk paths = (None, None).
Proof.
  induction 1 as [|p paths Hp _ IH]; [reflexivity|].
  rewrite <- IH. now apply try_paths_skip.
Qed.

(** Every candidate is passed over, loads a model, or is a pickled
    [None]. *)
Lemma skipped_or_loads (path : Path) :
  passed_over path
  \/ (exists model model_type, loading path model model_type)
  \/ unpickles_none model_object fs joblib_load path.
Proof.
  unfold passed_over, loading, skipped, loads, unpickles_none.
  destruct (path_exists fs path); [|left; left; reflexivity].
  destruct (string_dec (suffix path) ".json") as [Hj|Hj].
  - destruct xgboost_available; [|left; right; left; auto].
    destruct (load_booster path) as [m|e].
    + right. left. exists m, "xgboost". split; [reflexivity|]. left. auto.
    + left. right. right. left. eauto.
  - destruct (string_dec (suffix path) ".pkl") as [Hp|Hp].
    + destruct (joblib_load path) as [[m|]|e].
      * right. left. exists m, "sklearn". split; [reflexivity|]. right. auto.
      * right. right. auto.
      * left. right. right. right. left. eauto.
    + left. right. right. right. right. auto.
Qed.

(** A pickled [None] ends the walk without a model. *)
Lemma try_paths_pickled_none (before : list Path) (path : Path)
    (after : list Path) :
  Forall passed_over before ->
  unpickles_none model_object fs joblib_load path ->
  walk (before ++ path :: after) = (None, Some "sklearn").
Proof.
  intros Hskip (Hex & Hs & Hl). induction Hskip as [|p before Hp _ IH].
  - unfold walk. simpl. now rewrite Hex, Hs, Hl.
  - simpl. rewrite <- IH. now apply try_paths_skip.
Qed.

End ModelFacts.

(** Every candidate list is passed over entirely, or has a first
    candidate that is not passed over; that one loads a model or is a
    pickled [None]. *)
Lemma candidates_cases
    (model_object : Type) (fs : FileSystem) (xgboost_available : bool)
    (load_booster : Path -> result model_object)
    (joblib_load : Path -> result (option model_object))
    (paths : list Path) :
  Forall (skipped model_object fs xgboost_available load_booster
            joblib_load) paths
  \/ exists before path after,
       paths = before ++ path :: after
       /\ Forall (skipped model_object fs xgboost_available load_booster
                    joblib_load) before
       /\ ((exists model model_type,
              loads model_object fs xgboost_available load_booster
                joblib_load path model model_type)
           \/ unpickles_none model_object fs joblib_load path).
Proof.
  induction paths as [|p paths IH].
  - left. constructor.
  - destruct (skipped_or_loads model_object fs xgboost_available
                load_booster joblib_load p) as [Hskip|Hstop].
    + destruct IH as [Hall|(before & path & after & -> & Hb & Hcase)].
      * left. now constructor.
      * right. exists (p :: before), path, after.
        split; [reflexivity|]. split; [now constructor|assumption].
    + right. exists [], p, paths.
      split; [reflexivity|]. split; [constructor|assumption].
Qed.

(** C7, as amended. [load_trained_model] walks its candidates in order,
    passing over a candidate that does not exist, a [.json] candidate when
    xgboost is unavailable, and a candidate whose load raises. It returns
    the first model it loads, that is the first loaded object other than
    [None], tagged [xgboost] for a [.json] file and [sklearn] for a [.pkl]
    file. It raises the not-found error, whose message names
    [models/<name>.pkl] and [models/<name>.json] under the project root
    (and then the models directory), when every candidate is passed over,
    and also when the first candidate not passed over is a [.pkl] file
    whose pickled object is [None]: the walk ends there with the later
    candidates untried. These three cases are all there are. In
    particular a corrupt [.json] candidate followed by a valid [.pkl]
    candidate yields the [.pkl] model tagged [sklearn]. *)
Theorem load_trained_model_first_loadable
    (model_object : Type) (fs : FileSystem) (xgboost_available : bool)
    (load_booster : Path -> result model_object)
    (joblib_load : Path -> result (option model_object))
    (model_name : string) (model_path : option Path) :
  let skipped :=
    skipped model_object fs xgboost_available load_booster joblib_load in
  let loads :=
    loads model_object fs xgboost_available load_booster joblib_load in
  let unpickles_none := unpickles_none model_object fs joblib_load in
  let paths := possible_paths fs model_name model_path in
  let models_dir := get_project_root fs None // "models" in
  let not_found msg :=
    paths_of msg = [ models_dir // (model_name ++ ".pkl");
                     models_dir // (model_name ++ ".json");
                     models_dir ] in
  let result :=
    load_trained_model model_object fs xgboost_available load_booster
      joblib_load model_name model_path in
  (forall before path after model model_type,
     paths = before ++ path :: after ->
     Forall skipped before ->
     loads path model model_type ->
     result = Ok (model, Some model_type)
     /\ (model_type = "xgboost" /\ suffix path = ".json"
         \/ model_type = "sklearn" /\ suffix path = ".pkl"))
  /\ (Forall skipped paths ->
      exists msg, result = Raise (FileNotFoundError msg) /\ not_found msg)
  /\ (forall json pkl rest model,
        path_exists fs json = true -> suffix json = ".json" ->
        (exists e, load_booster json = Raise e) ->
        path_exists fs pkl = true -> suffix pkl = ".pkl" ->
        joblib_load pkl = Ok (Some model) ->
        try_paths model_object fs xgboost_available load_booster joblib_load
          (json :: pkl :: rest)
        = (Some model, Some "sklearn"))
  /\ (forall before path after,
        paths = before ++ path :: after ->
        Forall skipped before ->
        unpickles_none path ->
        exists msg, result = Raise (FileNotFoundError msg) /\ not_found msg)
  /\ (Forall skipped paths
      \/ exists before path after,
           paths = before ++ path :: after
           /\ Forall skipped before
           /\ ((exists model model_type, loads path model model_type)
               \/ unpickles_none path)).
Proof.
  intros skipped loads unpickles_none paths models_dir not_found result.
  split; [|split; [|split; [|split]]].
  - intros before path after model model_type Hpaths Hskip Hload.
    split.
    + unfold result, load_trained_model. fold paths. rewrite Hpaths.
      now rewrite (try_paths_first_loading model_object fs xgboost_available
                     load_booster joblib_load before path after
                     model model_type Hskip Hload).
    + destruct Hload as [_ [(Hs & _ & _ & ->)|(Hs & _ & ->)]]; auto.
  - intros Hskip. eexists. split.
    + unfold result, load_trained_model. fold paths.
      now rewrite (try_paths_exhausted model_object fs xgboost_available
                     load_booster joblib_load paths Hskip).
    + reflexivity.
  - intros json pkl rest model Hj Hsj Hcorrupt Hp Hsp Hvalid.
    apply (try_paths_first_loading model_object fs xgboost_available
             load_booster joblib_load [json] pkl rest model "sklearn").
    + constructor; [|constructor]. right. right. left. auto.
    + split; [assumption|]. right. auto.
  - intros before path after Hpaths Hskip Hnone. eexists. split.
    + unfold result, load_trained_model. fold paths. rewrite Hpaths.
      now rewrite (try_paths_pickled_none model_object fs xgboost_available
                     load_booster joblib_load before path after Hskip Hnone).
    + reflexivity.
  - apply candidates_cases.
Qed.

Lemma load_trained_model_first_loadable_witness :
  load_trained_model ModelExamples.model_object ModelExamples.fs true
    ModelExamples.load_booster ModelExamples.joblib_load
    "xgboost_spy_v1" None
  = Ok ("forest", Some "sklearn")
  /\ (exists msg,
        load_trained_model ModelExamples.model_object ModelExamples.fs_empty
          false ModelExamples.load_booster ModelExamples.joblib_load
          "xgboost_spy_v1" None
        = Raise (FileNotFoundError msg)
        /\ paths_of msg = [ of_string "/proj/models/xgboost_spy_v1.pkl";
                            of_string "/proj/models/xgboost_spy_v1.json";
                            of_string "/proj/models" ])
  /\ (exists msg,
        load_trained_model string PickleExamples.fs true
          PickleExamples.load_booster PickleExamples.joblib_load
          "xgboost_spy_v1" None
        = Raise (FileNotFoundError msg)
        /\ paths_of msg = [ of_string "/proj/models/xgboost_spy_v1.pkl";
                            of_string "/proj/models/xgboost_spy_v1.json";
                            of_string "/proj/models" ]).
Proof.
  split; [|split].
  - pose (paths := possible_paths ModelExamples.fs "xgboost_spy_v1" None).
    apply (proj1 (load_trained_model_first_loadable
                    ModelExamples.model_object ModelExamples.fs true
                    ModelExamples.load_booster ModelExamples.joblib_load
                    "xgboost_spy_v1" None)
             (firstn 6 paths)
             (of_string "../models/xgboost_spy_v1.pkl")
             (skipn 7 paths) "forest" "sklearn").
    + reflexivity.
    + let candidates := eval vm_compute in (firstn 6 paths) in
      change (firstn 6 paths) with candidates.
      repeat (apply Forall_cons;
              [ first [ left; reflexivity
                      | right; right; left; split;
                        [reflexivity | eexists; reflexivity] ] | ]).
      apply Forall_nil.
    + split; [reflexivity|]. right. repeat split; reflexivity.
  - apply (proj1 (proj2 (load_trained_model_first_loadable
                           ModelExamples.model_object
                           ModelExamples.fs_empty false
                           ModelExamples.load_booster
                           ModelExamples.joblib_load "xgboost_spy_v1" None))).
    let candidates :=
      eval vm_compute in
        (possible_paths ModelExamples.fs_empty "xgboost_spy_v1" None) in
    change (possible_paths ModelExamples.fs_empty "xgboost_spy_v1" None)
      with candidates.
    repeat (apply Forall_cons; [left; reflexivity|]).
    apply Forall_nil.
  - apply (proj1 (proj2 (proj2 (proj2 (load_trained_model_first_loadable
             string PickleExamples.fs true PickleExamples.load_booster
             PickleExamples.joblib_load "xgboost_spy_v1" None))))
             [] (of_string "/proj/models/xgboost_spy_v1.pkl")
             (tl (possible_paths PickleExamples.fs "xgboost_spy_v1" None))).
    + reflexivity.
    + constructor.
    + repeat split; reflexivity.
Defined.

(** C7, counterexample to returning at the first load attempt that does
    not fail: in [PickleExamples] the first candidate exists, is a [.pkl] file and its load attempt does not fail
    (the pickled object is [None]), yet [load_trained_model] raises the
    not-found error instead of returning, with the loadable [.json]
    candidate untried. *)
Lemma load_trained_model_none_pickle_counterexample :
  ~ returns_at_first_success string PickleExamples.fs true
      PickleExamples.load_booster PickleExamples.joblib_load
      "xgboost_spy_v1" None.
Proof.
  intros Hclaim.
  destruct (Hclaim [] (of_string "/proj/models/xgboost_spy_v1.pkl")
              (tl (possible_paths PickleExamples.fs "xgboost_spy_v1" None)))
    as [loaded Hloaded].
  - reflexivity.
  - constructor.
  - split; [reflexivity|]. right. split; [reflexivity|].
    exists None. reflexivity.
  - discriminate Hloaded.
Qed.

(* ================================================================== *)
(** * Further properties of the configuration loader *)
(* ================================================================== *)

(** Induction on a value with the hypothesis available for every value
    nested in a list or in a mapping. *)
Lemma Any_nested_ind (P : Any -> Prop) :
  P VNone ->
  (forall b, P (VBool b)) ->
  (forall n, P (VInt n)) ->
  (forall m e, P (VFloat m e)) ->
  (forall s, P (VStr s)) ->
  (forall items, Forall P items -> P (VList items)) ->
  (forall items, Forall (fun kv => P (snd kv)) items -> P (VDict items)) ->
  forall v, P v.
Proof.
  intros HNone HBool HInt HFloat HStr HList HDict.
  fix self 1. intros [ |b|n|m e|s|items|items].
  - exact HNone.
  - apply HBool.
  - apply HInt.
  - apply HFloat.
  - apply HStr.
  - apply HList. induction items as [|x items IH]; constructor.
    + apply self.
    + exact IH.
  - apply HDict. induction items as [|[k x] items IH]; constructor.
    + apply self.
    + exact IH.
Qed.

Section UniqueKeys.

Lemma mem_In (x : string) (xs : list string) :
  Py.mem x xs = true <-> In x xs.
Proof.
  unfold Py.mem. rewrite existsb_exists. split.
  - intros (y & Hy & E). apply String.eqb_eq in E. now subst.
  - intros H. exists x. split; [assumption|apply String.eqb_refl].
Qed.

Lemma mem_not_In (x : string) (xs : list string) :
  Py.mem x xs = false <-> ~ In x xs.
Proof.
  rewrite <- mem_In. destruct (Py.mem x xs); split; congruence.
Qed.

Lemma distinct_NoDup (ks : list string) : distinct ks = true <-> NoDup ks.
Proof.
  induction ks as [|k ks IH]; simpl.
  - split; [constructor|reflexivity].
  - rewrite andb_true_iff, negb_true_iff, mem_not_In, IH. split.
    + intros [H1 H2]. now constructor.
    + intros H. inversion H. auto.
Qed.

Lemma unique_keys_dict (items : dict) :
  unique_keys (VDict items) = true <->
  NoDup (keys items)
  /\ Forall (fun kv => unique_keys (snd kv) = true) items.
Proof.
  simpl. rewrite andb_true_iff, distinct_NoDup.
  assert (G : (fix all_values (l : list (string * Any)) : bool :=
                 match l with
                 | [] => true
                 | (_, x) :: rest => unique_keys x && all_values rest
                 end) items = true
              <-> Forall (fun kv => unique_keys (snd kv) = true) items).
  { induction items as [|[k x] items IH].
    - split; [constructor|reflexivity].
    - rewrite andb_true_iff, IH. split.
      + intros [H1 H2]. now constructor.
      + intros H. inversion H. auto. }
  unfold keys. tauto.
Qed.

Lemma dict_get_In (key : string) (v : Any) (d : dict) :
  dict_get key d = Some v -> In (key, v) d.
Proof.
  induction d as [|[k w] d IH]; simpl; [discriminate|].
  destruct (String.eqb key k) eqn:E.
  - apply String.eqb_eq in E. intros [= ->]. subst. now left.
  - intros H. right. auto.
Qed.

Lemma In_dict_get (key : string) (v : Any) (d : dict) :
  NoDup (keys d) -> In (key, v) d -> dict_get key d = Some v.
Proof.
  induction d as [|[k w] d IH]; simpl; [contradiction|].
  intros Huniq Hin. inversion Huniq as [|? ? Hfresh Huniq']; subst.
  destruct Hin as [[= -> ->]|Hin].
  - now rewrite String.eqb_refl.
  - destruct (String.eqb key k) eqn:E.
    + apply String.eqb_eq in E. subst k. exfalso. apply Hfresh.
      change key with (fst (key, v)). now apply in_map.
    + auto.
Qed.

Lemma unique_keys_get (key : string) (v : Any) (d : dict) :
  unique_keys (VDict d) = true -> dict_get key d = Some v ->
  unique_keys v = true.
Proof.
  intros Hd Hget. apply unique_keys_dict in Hd. destruct Hd as [_ Hall].
  rewrite Forall_forall in Hall.
  apply (Hall (key, v)). now apply dict_get_In.
Qed.

Lemma dict_set_same_value (key : string) (v : Any) (d : dict) :
  dict_get key d = Some v -> dict_set key v d = d.
Proof.
  induction d as [|[k w] d IH]; simpl; [discriminate|].
  destruct (String.eqb key k) eqn:E.
  - intros [= ->]. reflexivity.
  - intros H. now rewrite IH.
Qed.

Lemma keys_dict_set_order (key : string) (v : Any) (d : dict) :
  keys (dict_set key v d)
  = if Py.mem key (keys d) then keys d else keys d ++ [key].
Proof.
  unfold Py.mem. induction d as [|[k w] d IH]; simpl; [reflexivity|].
  destruct (String.eqb key k) eqn:E; simpl; [reflexivity|].
  rewrite IH. now destruct (existsb (String.eqb key) (keys d)).
Qed.

End UniqueKeys.

(** X1. The merged mapping lists the keys of the defaults first, in their
    order, followed by the keys only the user has, in the order of the
    user mapping. *)
Theorem merge_config_key_order (default user : dict) :
  NoDup (keys user) ->
  keys (_merge_config default user) = keys default ++ new_keys default user.
Proof.
  unfold new_keys. revert default.
  induction user as [|[k v] user IH]; intros default Huniq.
  - rewrite merge_config_nil. simpl. now rewrite app_nil_r.
  - inversion Huniq as [|? ? Hfresh Huniq']; subst.
    rewrite merge_config_cons, merge_item_entry, IH by assumption.
    rewrite keys_dict_set_order. simpl.
    destruct (Py.mem k (keys default)) eqn:Hk; simpl.
    + reflexivity.
    + rewrite <- app_assoc. simpl. do 2 f_equal.
      apply filter_ext_in. intros key Hkey. f_equal.
      unfold Py.mem. rewrite existsb_app. simpl.
      destruct (String.eqb key k) eqn:E.
      * apply String.eqb_eq in E. subst. contradiction.
      * now rewrite !orb_false_r.
Qed.

Lemma merge_config_key_order_witness :
  keys (_merge_config _get_default_config MergeExamples.user)
  = ["trading"; "features"; "model"; "backtest"; "logging"].
Proof.
  rewrite (merge_config_key_order _get_default_config MergeExamples.user).
  - reflexivity.
  - apply distinct_NoDup. reflexivity.
Defined.

(** The loop of [_merge_config] leaves a mapping alone when each of its
    steps does. *)
Lemma merge_config_fixed (result user : dict) :
  (forall key v, In (key, v) user ->
     merge_item merge_with result key v = result) ->
  _merge_config result user = result.
Proof.
  induction user as [|[k v] user IH]; intros Hstep.
  - reflexivity.
  - rewrite merge_config_cons, Hstep by now left.
    apply IH. intros key w Hin. apply Hstep. now right.
Qed.

(** Merging a mapping with itself, and merging the same mapping a second
    time, change nothing. *)
Lemma merge_config_again (v : Any) :
  forall user, v = VDict user -> unique_keys v = true ->
  _merge_config user user = user
  /\ forall default,
       _merge_config (_merge_config default user) user
       = _merge_config default user.
Proof.
  induction v as [ | | | | | |items IH] using Any_nested_ind;
    try discriminate.
  intros user [= <-] Hwf.
  apply unique_keys_dict in Hwf. destruct Hwf as [Huniq Hall].
  rewrite Forall_forall in IH, Hall.
  assert (Hself : forall n, In n (map snd items) -> is_dict n = true ->
            exists x, n = VDict x /\ _merge_config x x = x
                      /\ forall d, _merge_config (_merge_config d x) x
                                   = _merge_config d x).
  { intros n Hn Hdict. apply in_map_iff in Hn.
    destruct Hn as ([k n'] & <- & Hin). simpl in *.
    destruct n' as [ | | | | | |x]; try discriminate.
    exists x. split; [reflexivity|].
    apply (IH (k, VDict x) Hin x eq_refl). apply (Hall (k, VDict x) Hin). }
  split.
  - apply merge_config_fixed. intros key v Hin.
    rewrite merge_item_entry, (In_dict_get key v items Huniq Hin).
    apply dict_set_same_value.
    rewrite (In_dict_get key v items Huniq Hin). f_equal.
    destruct v; try reflexivity.
    destruct (Hself (VDict items0)) as (x & [= <-] & Hx & _);
      [apply in_map_iff; exists (key, VDict items0); auto|reflexivity|].
    simpl. now rewrite Hx.
  - intros default. apply merge_config_fixed. intros key v Hin.
    pose proof (In_dict_get key v items Huniq Hin) as Hget.
    rewrite merge_item_entry, (dict_get_merge items default key Huniq), Hget.
    apply dict_set_same_value.
    rewrite (dict_get_merge items default key Huniq), Hget. f_equal.
    destruct v; try (destruct (dict_get key default) as [[]|]; reflexivity).
    destruct (Hself (VDict items0)) as (x & [= <-] & Hx & Hxx);
      [apply in_map_iff; exists (key, VDict items0); auto|reflexivity|].
    destruct (dict_get key default) as [[]|]; simpl;
      now rewrite ?Hx, ?Hxx.
Qed.

(** X2. Merging the same user mapping a second time changes nothing, and a
    mapping merged with itself is unchanged. *)
Theorem merge_config_idempotent (default user : dict) :
  unique_keys (VDict user) = true ->
  _merge_config (_merge_config default user) user = _merge_config default user
  /\ _merge_config user user = user.
Proof.
  intros Hwf.
  destruct (merge_config_again (VDict user) user eq_refl Hwf) as [Hself Hidem].
  split; [apply Hidem|exact Hself].
Qed.

Lemma merge_config_idempotent_witness :
  _merge_config (_merge_config _get_default_config MergeExamples.user)
    MergeExamples.user
  = _merge_config _get_default_config MergeExamples.user
  /\ _merge_config _get_default_config _get_default_config
     = _get_default_config.
Proof.
  split.
  - apply (proj1 (merge_config_idempotent _get_default_config
                    MergeExamples.user eq_refl)).
  - apply (proj2 (merge_config_idempotent [] _get_default_config eq_refl)).
Defined.

Lemma reaches_from_leaf (v : Any) (keys : list string) (v' : Any) :
  reaches v keys v' -> is_dict v = false -> keys = [] /\ v' = v.
Proof.
  destruct 1; [auto|discriminate].
Qed.

(** A leaf of the user mapping is found at the same place after the
    merge. *)
Lemma reaches_merge_user (keys : list string) :
  forall (default user : dict) (v : Any),
    unique_keys (VDict user) = true ->
    reaches (VDict user) keys v ->
    is_dict v = false ->
    reaches (VDict (_merge_config default user)) keys v.
Proof.
  induction keys as [|key keys IH]; intros default user v Hwf Hreach Hleaf.
  - inversion Hreach; subst. discriminate.
  - inversion Hreach as [|? ? ? uv ? Hget Hrest]; subst.
    pose proof (proj1 (proj1 (unique_keys_dict user) Hwf)) as Huniq.
    apply reaches_below
      with (v := merged_entry (dict_get key default) uv).
    + now rewrite (dict_get_merge user default key Huniq), Hget.
    + unfold merged_entry.
      destruct (dict_get key default) as [[ | | | | | |nested]|];
        try assumption.
      destruct uv as [ | | | | | |ud]; try assumption.
      apply IH; try assumption.
      eapply unique_keys_get; eassumption.
Qed.

(** A default is found at the same place after the merge when the user
    mapping, followed along the same keys, is a mapping without the next
    key. *)
Lemma reaches_merge_default (before : list string) :
  forall (default user ud : dict) (key : string) (after : list string)
         (v : Any),
    unique_keys (VDict user) = true ->
    reaches (VDict default) (before ++ key :: after) v ->
    reaches (VDict user) before (VDict ud) ->
    dict_get key ud = None ->
    reaches (VDict (_merge_config default user)) (before ++ key :: after) v.
Proof.
  induction before as [|k before IH];
    intros default user ud key after v Hwf Hd Hu Hmiss.
  - inversion Hu; subst. cbn [app] in *.
    inversion Hd as [|? ? ? dv ? Hget Hrest]; subst.
    pose proof (proj1 (proj1 (unique_keys_dict ud) Hwf)) as Huniq.
    apply reaches_below with (v := dv); [|assumption].
    now rewrite (dict_get_merge ud default key Huniq), Hmiss.
  - cbn [app] in *.
    inversion Hd as [|? ? ? dv ? Hgetd Hrestd]; subst.
    inversion Hu as [|? ? ? uv ? Hgetu Hrestu]; subst.
    pose proof (proj1 (proj1 (unique_keys_dict user) Hwf)) as Huniq.
    assert (Hdv : exists nested, dv = VDict nested).
    { inversion Hrestd; subst; [destruct before; discriminate|eauto]. }
    assert (Huv : exists un, uv = VDict un).
    { inversion Hrestu; subst; eauto. }
    destruct Hdv as [nested ->]. destruct Huv as [un ->].
    apply reaches_below with (v := VDict (_merge_config nested un)).
    + now rewrite (dict_get_merge user default k Huniq), Hgetu, Hgetd.
    + eapply IH; try eassumption.
      eapply unique_keys_get; eassumption.
Qed.

(** X3. A value other than a mapping that the user configuration holds at
    a dot-path is what [get_config_value] returns at that path in the
    merged configuration, at any depth and whatever the defaults hold
    there. *)
Theorem get_config_value_user_wins
    (default user : dict) (key_path : string) (v fallback : Any) :
  unique_keys (VDict user) = true ->
  reaches (VDict user) (Py.split "." key_path) v ->
  is_dict v = false ->
  get_config_value (VDict (_merge_config default user)) key_path fallback = v.
Proof.
  intros Hwf Hreach Hleaf. unfold get_config_value.
  apply walk_keys_reaches. now apply reaches_merge_user.
Qed.

Lemma get_config_value_user_wins_witness :
  get_config_value
    (VDict (_merge_config _get_default_config MergeExamples.user))
    "trading.venue" VNone = VStr "ARCA".
Proof.
  apply (get_config_value_user_wins _get_default_config MergeExamples.user
           "trading.venue" (VStr "ARCA") VNone).
  - reflexivity.
  - econstructor; [reflexivity|]. econstructor; [reflexivity|]. constructor.
  - reflexivity.
Defined.

(** X4. A value the defaults hold at a dot-path is still what
    [get_config_value] returns there after the merge, provided the user
    configuration, followed along the same keys, stops at a mapping that
    lacks the next key. *)
Theorem get_config_value_default_survives
    (default user ud : dict) (key_path : string)
    (before : list string) (key : string) (after : list string)
    (v fallback : Any) :
  unique_keys (VDict user) = true ->
  Py.split "." key_path = before ++ key :: after ->
  reaches (VDict default) (before ++ key :: after) v ->
  reaches (VDict user) before (VDict ud) ->
  dict_get key ud = None ->
  get_config_value (VDict (_merge_config default user)) key_path fallback = v.
Proof.
  intros Hwf Hsplit Hd Hu Hmiss. unfold get_config_value. rewrite Hsplit.
  apply walk_keys_reaches. eapply reaches_merge_default; eassumption.
Qed.

Lemma get_config_value_default_survives_witness :
  get_config_value
    (VDict (_merge_config _get_default_config MergeExamples.user))
    "trading.timeframe" VNone = VStr "D1".
Proof.
  apply (get_config_value_default_survives _get_default_config
           MergeExamples.user
           [("symbol", VStr "QQQ"); ("venue", VStr "ARCA")]
           "trading.timeframe" ["trading"] "timeframe" []
           (VStr "D1") VNone).
  - reflexivity.
  - reflexivity.
  - econstructor; [reflexivity|]. econstructor; [reflexivity|]. constructor.
  - econstructor; [reflexivity|]. constructor.
  - reflexivity.
Defined.

(** X5. For a configuration file that exists, [load_config] propagates
    the error of the YAML parser, returns the defaults for every falsy
    document (empty, [0], [false], an empty string, list or mapping),
    merges a mapping over the defaults, and raises [AttributeError] for
    any other document, such as a non-empty list or string. *)
Theorem load_config_document_kinds
    (fs : FileSystem) (yaml_safe_load : Path -> result Any)
    (config_path : Path) :
  path_exists fs config_path = true ->
  let result := load_config fs yaml_safe_load (Some config_path) in
  (forall e, yaml_safe_load config_path = Raise e -> result = Raise e)
  /\ (forall document,
        yaml_safe_load config_path = Ok document ->
        truthy document = false ->
        result = Ok _get_default_config)
  /\ (forall user,
        yaml_safe_load config_path = Ok (VDict user) ->
        result = Ok (_merge_config _get_default_config user))
  /\ (forall document,
        yaml_safe_load config_path = Ok document ->
        truthy document = true -> is_dict document = false ->
        result = Raise (AttributeError "items")).
Proof.
  intros Hexists result. unfold result, load_config, load_config_at.
  rewrite Hexists. simpl. repeat split.
  - intros e ->. reflexivity.
  - intros document -> Hfalsy. simpl. now rewrite Hfalsy.
  - intros user ->. simpl. now destruct user.
  - intros document -> Htruthy Hother. simpl. rewrite Htruthy.
    destruct document; try reflexivity. discriminate.
Qed.

Lemma load_config_document_kinds_witness :
  load_config DocumentExamples.fs DocumentExamples.yaml_safe_load
    (Some (of_string "/proj/config.yaml"))
  = Raise (AttributeError "items")
  /\ load_config DocumentExamples.fs DocumentExamples.yaml_safe_load
       (Some (of_string "/proj/zero.yaml"))
     = Ok _get_default_config.
Proof.
  split.
  - apply (proj2 (proj2 (proj2 (load_config_document_kinds
             DocumentExamples.fs DocumentExamples.yaml_safe_load
             (of_string "/proj/config.yaml") eq_refl)))
             (VList [VStr "SPY"; VStr "QQQ"])); reflexivity.
  - apply (proj1 (proj2 (load_config_document_kinds
             DocumentExamples.fs DocumentExamples.yaml_safe_load
             (of_string "/proj/zero.yaml") eq_refl))
             (VInt 0)); reflexivity.
Defined.

(* ================================================================== *)
(** * Further properties of the data loader *)
(* ================================================================== *)

Section RowFacts.

Variable parse_datetime : string -> result (option Z).

Lemma convert_at_parsed (r : row) :
  forall i r',
    convert_at parse_datetime i r = Ok r' ->
    time_parsed parse_datetime i r r'.
Proof.
  unfold time_parsed.
  induction r as [|c0 rest IH]; intros i r' Hconv.
  - assert (r' = []) as -> by (destruct i; simpl in Hconv; congruence).
    repeat split; try reflexivity.
    intros c Hc. destruct i; discriminate.
  - destruct i as [|i]; simpl in Hconv.
    + assert (Hcell : exists t, convert_cell parse_datetime c0
                                = Ok (Datetime t)
                                /\ r' = Datetime t :: rest).
      { destruct (convert_cell parse_datetime c0) as [c'|e] eqn:E;
          simpl in Hconv; [|discriminate].
        injection Hconv as <-.
        destruct c0 as [text|t]; simpl in E.
        - destruct (parse_datetime text) as [t|e]; simpl in E;
            [|discriminate].
          injection E as <-. eauto.
        - injection E as <-. eauto. }
      destruct Hcell as (t & Hcell & ->). repeat split.
      * intros [|j] Hj; [contradiction|reflexivity].
      * intros c [= <-]. exists t. split; [reflexivity|].
        destruct c0 as [text|t0]; simpl in Hcell.
        -- destruct (parse_datetime text) as [t'|e]; simpl in Hcell;
             congruence.
        -- congruence.
    + destruct (convert_at parse_datetime i rest) as [rest'|e] eqn:E;
        simpl in Hconv; [|discriminate].
      injection Hconv as <-.
      destruct (IH i rest' E) as (Hlen & Hother & Hcell).
      repeat split.
      * simpl. now rewrite Hlen.
      * intros [|j] Hj; [reflexivity|]. simpl. apply Hother. congruence.
      * intros c Hc. simpl in Hc. now apply Hcell.
Qed.

Lemma map_result_Forall2 {A B : Type} (f : A -> result B) (xs : list A) :
  forall ys, map_result f xs = Ok ys ->
             Forall2 (fun x y => f x = Ok y) xs ys.
Proof.
  induction xs as [|x xs IH]; simpl; intros ys Hmap.
  - injection Hmap as <-. constructor.
  - destruct (f x) as [y|e] eqn:Ef; simpl in Hmap; [|discriminate].
    destruct (map_result f xs) as [ys0|e]; simpl in Hmap; [|discriminate].
    injection Hmap as <-. constructor; auto.
Qed.

Lemma to_datetime_rows (label : string) (df df' : DataFrame) :
  to_datetime parse_datetime label df = Ok df' ->
  exists i,
    index_of label (columns df) = Some i
    /\ columns df' = columns df
    /\ Forall2 (time_parsed parse_datetime i) (rows df) (rows df').
Proof.
  unfold to_datetime.
  destruct (index_of label (columns df)) as [i|]; [|discriminate].
  destruct (map_result (convert_at parse_datetime i) (rows df))
    as [rows'|e] eqn:Em; simpl; [|discriminate].
  intros [= <-]. exists i. repeat split. simpl.
  apply map_result_Forall2 in Em.
  eapply Forall2_impl; [|exact Em].
  intros r r' Hr. now apply convert_at_parsed.
Qed.

End RowFacts.

Lemma insert_row_permutation (i : nat) (r : row) (sorted : list row) :
  Permutation (r :: sorted) (insert_row i r sorted).
Proof.
  induction sorted as [|r' rest IH]; simpl.
  - apply Permutation_refl.
  - destruct (key_leb (sort_key i r) (sort_key i r')).
    + apply Permutation_refl.
    + eapply Permutation_trans; [apply perm_swap|].
      now apply perm_skip.
Qed.

Lemma sort_rows_permutation (i : nat) (rs : list row) :
  Permutation rs (sort_rows i rs).
Proof.
  induction rs as [|r rs IH]; simpl.
  - apply Permutation_refl.
  - eapply Permutation_trans; [|apply insert_row_permutation].
    now apply perm_skip.
Qed.

Lemma sort_values_rows (label : string) (df out : DataFrame) :
  sort_values label df = Ok out ->
  columns out = columns df /\ Permutation (rows df) (rows out).
Proof.
  unfold sort_values.
  destruct (index_of label (columns df)) as [i|]; [|discriminate].
  intros [= <-]. split; [reflexivity|]. apply sort_rows_permutation.
Qed.

(** X6. The table [load_processed_data] returns keeps the columns of the
    CSV file, and its rows are the rows of the file, each with its [time]
    cell replaced by the timestamp parsed from it and nothing else
    changed, in some order: no row is lost, added or otherwise altered. *)
Theorem load_processed_data_keeps_rows
    (fs : FileSystem) (read_csv : Path -> result DataFrame)
    (parse_datetime : string -> result (option Z))
    (filename : string) (out : DataFrame) :
  load_processed_data fs read_csv parse_datetime filename = Ok out ->
  exists df i converted,
    read_csv (resolve_data_path fs filename "processed") = Ok df
    /\ index_of "time" (columns df) = Some i
    /\ columns out = columns df
    /\ Forall2 (time_parsed parse_datetime i) (rows df) converted
    /\ Permutation converted (rows out).
Proof.
  intros Hload. unfold load_processed_data in Hload.
  destruct (negb (path_exists fs
                    (resolve_data_path fs filename "processed")));
    [discriminate|].
  bind_ok Hload df Eread. exists df.
  destruct (Py.mem "time" (columns df)) eqn:Htime.
  - bind_ok Hload df1 Econv. bind_ok Hload sorted Esort.
    injection Hload as <-.
    destruct (to_datetime_rows _ _ _ _ Econv) as (i & Hi & Hcols & Hrows).
    destruct (sort_values_rows _ _ _ Esort) as [Hcols' Hperm].
    exists i, (rows df1). repeat split; try assumption. congruence.
  - cbn [bind] in Hload.
    rewrite sort_values_unknown_label in Hload by assumption.
    discriminate.
Qed.

Lemma load_processed_data_keeps_rows_witness :
  exists out df i converted,
    load_processed_data DataExamples.fs DataExamples.read_csv
      DataExamples.parse_datetime "spy_featured.csv" = Ok out
    /\ DataExamples.read_csv
         (resolve_data_path DataExamples.fs "spy_featured.csv" "processed")
       = Ok df
    /\ index_of "time" (columns df) = Some i
    /\ columns out = columns df
    /\ Forall2 (time_parsed DataExamples.parse_datetime i) (rows df) converted
    /\ Permutation converted (rows out).
Proof.
  eexists.
  destruct (load_processed_data_keeps_rows DataExamples.fs
              DataExamples.read_csv DataExamples.parse_datetime
              "spy_featured.csv" _ eq_refl)
    as (df & i & converted & Hread & Hrest).
  exists df, i, converted. split; [reflexivity|]. split; [exact Hread|].
  exact Hrest.
Defined.

Lemma rename_to_itself (label : string) (cols : list string) :
  map (fun c => if String.eqb c label then label else c) cols = cols.
Proof.
  induction cols as [|c cols IH]; simpl; [reflexivity|].
  rewrite IH. destruct (String.eqb c label) eqn:E; [|reflexivity].
  apply String.eqb_eq in E. now subst.
Qed.

(** The block "Ensure time column is datetime", row by row: the first of
    [time], [date], [Date] is parsed and takes the label [time]; without
    any of them the table is left as it is. *)
Lemma ensure_time_column_rows
    (parse_datetime : string -> result (option Z)) (df df1 : DataFrame) :
  ensure_time_column parse_datetime df = Ok df1 ->
  (exists label i,
     time_label (columns df) = Some label
     /\ index_of label (columns df) = Some i
     /\ columns df1
        = map (fun c => if String.eqb c label then "time" else c)
              (columns df)
     /\ Forall2 (time_parsed parse_datetime i) (rows df) (rows df1))
  \/ (df1 = df /\ Py.mem "time" (columns df) = false).
Proof.
  unfold ensure_time_column, time_label. intros Hnorm. simpl.
  destruct (Py.mem "time" (columns df)) eqn:Htime.
  - left. destruct (to_datetime_rows _ _ _ _ Hnorm) as (i & Hi & Hcols & Hr).
    exists "time", i. rewrite rename_to_itself. auto.
  - destruct (Py.mem "date" (columns df)).
    + bind_ok Hnorm df2 E. injection Hnorm as <-. left.
      destruct (to_datetime_rows _ _ _ _ E) as (i & Hi & Hcols & Hr).
      exists "date", i. simpl. rewrite Hcols. auto.
    + destruct (Py.mem "Date" (columns df)).
      * bind_ok Hnorm df2 E. injection Hnorm as <-. left.
        destruct (to_datetime_rows _ _ _ _ E) as (i & Hi & Hcols & Hr).
        exists "Date", i. simpl. rewrite Hcols. auto.
      * injection Hnorm as <-. right. auto.
Qed.

Lemma filter_nothing {A : Type} (f : A -> bool) (xs : list A) :
  filter f xs = [] -> Forall (fun x => f x = false) xs.
Proof.
  induction xs as [|x xs IH]; simpl; intros H; [constructor|].
  destruct (f x) eqn:E; [discriminate|]. constructor; auto.
Qed.

(** Everything a successful [load_raw_data] went through. *)
Lemma load_raw_data_steps
    (fs : FileSystem) (read_csv : Path -> result DataFrame)
    (parse_datetime : string -> result (option Z))
    (filename : option string) (pattern symbol : string)
    (out : DataFrame) :
  load_raw_data fs read_csv parse_datetime filename pattern symbol = Ok out ->
  exists csv_path df label i converted,
    raw_csv_path fs filename pattern symbol = Ok csv_path
    /\ read_csv csv_path = Ok df
    /\ time_label (columns df) = Some label
    /\ index_of label (columns df) = Some i
    /\ columns out
       = map (fun c => if String.eqb c label then "time" else c)
             (columns df)
    /\ Forall2 (time_parsed parse_datetime i) (rows df) converted
    /\ Permutation converted (rows out)
    /\ Forall (fun col => In col (columns out)) required_cols.
Proof.
  intros Hraw. unfold load_raw_data in Hraw.
  bind_ok Hraw csv_path Epath. bind_ok Hraw df Eread.
  bind_ok Hraw df1 Enorm. bind_ok Hraw sorted Esort.
  match type of Hraw with
  | match ?missing_cols with [] => _ | _ :: _ => _ end = _ =>
      destruct missing_cols eqn:Emissing
  end; [|discriminate].
  injection Hraw as <-.
  destruct (sort_values_rows _ _ _ Esort) as [Hcols Hperm].
  destruct (ensure_time_column_rows _ _ _ Enorm)
    as [(label & i & Hlabel & Hi & Hren & Hrows)|[-> Htime]].
  - exists csv_path, df, label, i, (rows df1).
    repeat split; try assumption; try congruence.
    apply filter_nothing in Emissing.
    eapply Forall_impl; [|exact Emissing].
    intros col Hcol. apply negb_false_iff in Hcol. now apply mem_In.
  - rewrite sort_values_unknown_label in Esort by assumption.
    discriminate.
Qed.

(** X7. Every table [load_raw_data] returns has the columns of the CSV
    file with the first of [time], [date], [Date] among them relabelled
    [time] (when [time] is there, [date] and [Date] keep their labels),
    and these contain [time], [open], [high], [low] and [close]. *)
Theorem load_raw_data_columns
    (fs : FileSystem) (read_csv : Path -> result DataFrame)
    (parse_datetime : string -> result (option Z))
    (filename : option string) (pattern symbol : string)
    (out : DataFrame) :
  load_raw_data fs read_csv parse_datetime filename pattern symbol = Ok out ->
  exists csv_path df label,
    raw_csv_path fs filename pattern symbol = Ok csv_path
    /\ read_csv csv_path = Ok df
    /\ time_label (columns df) = Some label
    /\ columns out
       = map (fun c => if String.eqb c label then "time" else c)
             (columns df)
    /\ Forall (fun col => In col (columns out))
              ["time"; "open"; "high"; "low"; "close"].
Proof.
  intros Hraw.
  destruct (load_raw_data_steps _ _ _ _ _ _ _ Hraw)
    as (csv_path & df & label & i & converted
        & Hpath & Hread & Hlabel & _ & Hcols & _ & _ & Hreq).
  exists csv_path, df, label. repeat split; assumption.
Qed.

Lemma load_raw_data_columns_witness :
  exists out csv_path df,
    load_raw_data DataExamples.fs DataExamples.read_csv
      DataExamples.parse_datetime None "SPY*.csv" "SPY" = Ok out
    /\ DataExamples.read_csv csv_path = Ok df
    /\ time_label (columns df) = Some "Date"
    /\ columns out = ["time"; "open"; "high"; "low"; "close"].
Proof.
  eexists.
  destruct (load_raw_data_columns DataExamples.fs DataExamples.read_csv
              DataExamples.parse_datetime None "SPY*.csv" "SPY" _ eq_refl)
    as (csv_path & df & label & Hpath & Hread & Hlabel & Hcols & _).
  exists csv_path, df. split; [reflexivity|]. split; [exact Hread|].
  injection Hpath as <-. injection Hread as <-.
  split; reflexivity.
Defined.

(** X8. The rows [load_raw_data] returns are the rows of the CSV file,
    each with the cell of its time column replaced by the timestamp
    parsed from it and nothing else changed, in some order: no row is
    lost, added or otherwise altered. *)
Theorem load_raw_data_keeps_rows
    (fs : FileSystem) (read_csv : Path -> result DataFrame)
    (parse_datetime : string -> result (option Z))
    (filename : option string) (pattern symbol : string)
    (out : DataFrame) :
  load_raw_data fs read_csv parse_datetime filename pattern symbol = Ok out ->
  exists csv_path df label i converted,
    raw_csv_path fs filename pattern symbol = Ok csv_path
    /\ read_csv csv_path = Ok df
    /\ time_label (columns df) = Some label
    /\ index_of label (columns df) = Some i
    /\ Forall2 (time_parsed parse_datetime i) (rows df) converted
    /\ Permutation converted (rows out).
Proof.
  intros Hraw.
  destruct (load_raw_data_steps _ _ _ _ _ _ _ Hraw)
    as (csv_path & df & label & i & converted
        & Hpath & Hread & Hlabel & Hi & _ & Hrows & Hperm & _).
  exists csv_path, df, label, i, converted. repeat split; assumption.
Qed.

Lemma load_raw_data_keeps_rows_witness :
  exists out converted,
    load_raw_data DataExamples.fs DataExamples.read_csv
      DataExamples.parse_datetime None "SPY*.csv" "SPY" = Ok out
    /\ Forall2 (time_parsed DataExamples.parse_datetime 0)
               (rows DataExamples.spy_d1) converted
    /\ Permutation converted (rows out).
Proof.
  eexists.
  destruct (load_raw_data_keeps_rows DataExamples.fs DataExamples.read_csv
              DataExamples.parse_datetime None "SPY*.csv" "SPY" _ eq_refl)
    as (csv_path & df & label & i & converted
        & Hpath & Hread & Hlabel & Hi & Hrows & Hperm).
  exists converted. split; [reflexivity|].
  injection Hpath as <-. injection Hread as <-.
  injection Hlabel as <-. injection Hi as <-.
  split; assumption.
Defined.

(** X9. The file [load_raw_data] reads. With a non-empty [filename] it
    is [data/raw] under the project root joined with that name and
    resolved (the name itself when it starts with [/]), and it exists;
    when that path does not exist the error is the [FileNotFoundError]
    carrying it, and nothing is searched. With no filename, or an empty
    one, the file is the first match of [pattern] in an existing
    [data/raw], or, only when [pattern] matches nothing, the first match
    of [<symbol>*.csv]; when [data/raw] does not exist the error is the
    [FileNotFoundError] carrying that directory. *)
Theorem raw_csv_path_choice
    (fs : FileSystem) (filename : option string) (pattern symbol : string) :
  let raw_dir := get_project_root fs None // "data" // "raw" in
  let chosen := raw_csv_path fs filename pattern symbol in
  (forall name csv_path,
     filename = Some name -> name <> "" -> chosen = Ok csv_path ->
     csv_path = resolve fs (raw_dir // name)
     /\ path_exists fs csv_path = true)
  /\ (forall name,
        filename = Some name -> name <> "" ->
        path_exists fs (resolve fs (raw_dir // name)) = false ->
        exists msg,
          chosen = Raise (FileNotFoundError msg)
          /\ paths_of msg = [resolve fs (raw_dir // name)])
  /\ (forall csv_path,
        filename = None \/ filename = Some "" -> chosen = Ok csv_path ->
        path_exists fs raw_dir = true
        /\ ((exists others, glob fs raw_dir pattern = csv_path :: others)
            \/ (glob fs raw_dir pattern = []
                /\ exists others,
                     glob fs raw_dir (symbol ++ "*.csv")
                     = csv_path :: others)))
  /\ (filename = None \/ filename = Some "" ->
      path_exists fs raw_dir = false ->
      exists msg,
        chosen = Raise (FileNotFoundError msg)
        /\ paths_of msg = [raw_dir]).
Proof.
  intros raw_dir chosen. unfold chosen, raw_csv_path.
  split; [|split; [|split]].
  - intros name csv_path -> Hname. unfold given.
    apply String.eqb_neq in Hname. rewrite Hname.
    change (resolve_data_path fs name "raw")
      with (resolve fs (raw_dir // name)).
    destruct (path_exists fs (resolve fs (raw_dir // name))) eqn:E;
      simpl; [|discriminate].
    intros [= <-]. auto.
  - intros name -> Hname Hmissing. unfold given.
    apply String.eqb_neq in Hname. rewrite Hname.
    change (resolve_data_path fs name "raw")
      with (resolve fs (raw_dir // name)).
    rewrite Hmissing. simpl. eexists. split; reflexivity.
  - intros csv_path Hnone.
    assert (Hgiven : given filename = None)
      by (destruct Hnone as [->| ->]; reflexivity).
    rewrite Hgiven. unfold find_data_file. fold raw_dir.
    destruct (path_exists fs raw_dir); simpl; [|discriminate].
    destruct (glob fs raw_dir pattern) as [|first others].
    + destruct (glob fs raw_dir (symbol ++ "*.csv")) as [|first others];
        [discriminate|].
      intros [= <-]. split; [reflexivity|]. right. eauto.
    + intros [= <-]. split; [reflexivity|]. left. eauto.
  - intros Hnone Hmissing.
    assert (Hgiven : given filename = None)
      by (destruct Hnone as [->| ->]; reflexivity).
    rewrite Hgiven. unfold find_data_file. fold raw_dir.
    rewrite Hmissing. simpl. eexists. split; reflexivity.
Qed.

Lemma raw_csv_path_choice_witness :
  raw_csv_path SearchExamples.fs (Some "") "SPY*.csv" "QQQ"
  = Ok (of_string "/proj/data/raw/QQQ_D1.csv")
  /\ glob SearchExamples.fs (of_string "/proj/data/raw") "SPY*.csv" = []
  /\ (exists msg,
        raw_csv_path SearchExamples.fs (Some "SPY_D1.csv") "SPY*.csv" "QQQ"
        = Raise (FileNotFoundError msg)
        /\ paths_of msg = [of_string "/proj/data/raw/SPY_D1.csv"])
  /\ (exists msg,
        raw_csv_path PathExamples.bare None "SPY*.csv" "SPY"
        = Raise (FileNotFoundError msg)
        /\ paths_of msg = [of_string "/tmp/x/data/raw"]).
Proof.
  pose proof (raw_csv_path_choice SearchExamples.fs (Some "")
                "SPY*.csv" "QQQ") as (_ & _ & Hsearch & _).
  pose proof (raw_csv_path_choice SearchExamples.fs (Some "SPY_D1.csv")
                "SPY*.csv" "QQQ") as (_ & Hnamed & _).
  pose proof (raw_csv_path_choice PathExamples.bare None
                "SPY*.csv" "SPY") as (_ & _ & _ & Hnodir).
  split; [reflexivity|]. split; [|split].
  - destruct (Hsearch (of_string "/proj/data/raw/QQQ_D1.csv"))
      as [_ [[others Hfirst]|[Hnone _]]];
      [right; reflexivity|reflexivity|discriminate Hfirst|exact Hnone].
  - apply (Hnamed "SPY_D1.csv"); [reflexivity|discriminate|reflexivity].
  - apply Hnodir; [left; reflexivity|reflexivity].
Defined.

(* ================================================================== *)
(** * Further properties of the model loader *)
(* ================================================================== *)

Section ModelInversion.

Variable model_object : Type.
Variable fs : FileSystem.
Variable xgboost_available : bool.
Variable load_booster : Path -> result model_object.
Variable joblib_load : Path -> result (option model_object).

Let passed_over :=
  skipped model_object fs xgboost_available load_booster joblib_load.
Let loading :=
  loads model_object fs xgboost_available load_booster joblib_load.
Let walk :=
  try_paths model_object fs xgboost_available load_booster joblib_load.

(** A walk that ends with a model stopped at the first candidate that
    was not passed over, and that candidate loaded the model. *)
Lemma try_paths_found (paths : list Path) (model : model_object)
    (tag : option string) :
  walk paths = (Some model, tag) ->
  exists before path after model_type,
    paths = before ++ path :: after
    /\ Forall passed_over before
    /\ loading path model model_type
    /\ tag = Some model_type.
Proof.
  induction paths as [|p paths IH]; intros Hwalk.
  - discriminate.
  - destruct (skipped_or_loads model_object fs xgboost_available
                load_booster joblib_load p)
      as [Hskip|[(m & mt & Hload)|Hnone]].
    + unfold walk in Hwalk.
      rewrite (try_paths_skip model_object fs xgboost_available
                 load_booster joblib_load p paths Hskip) in Hwalk.
      destruct (IH Hwalk) as (before & path & after & mt & -> & Hb & Hl & Ht).
      exists (p :: before), path, after, mt.
      split; [reflexivity|]. split; [now constructor|]. split; assumption.
    + unfold walk in Hwalk.
      rewrite (try_paths_load model_object fs xgboost_available
                 load_booster joblib_load p paths m mt Hload) in Hwalk.
      injection Hwalk as <- <-.
      exists [], p, paths, mt.
      split; [reflexivity|]. split; [constructor|]. split; auto.
    + unfold walk in Hwalk.
      pose proof (try_paths_pickled_none model_object fs xgboost_available
                    load_booster joblib_load [] p paths (Forall_nil _) Hnone)
        as Hstop.
      cbn [app] in Hstop. rewrite Hstop in Hwalk. discriminate.
Qed.

End ModelInversion.

(** X10. Whenever [load_trained_model] returns a model, the model was
    loaded from one of its candidates, every candidate before that one was
    passed over (absent, a [.json] file without xgboost, or failing to
    load), and the tag is [xgboost] for a [.json] file, [sklearn] for a
    [.pkl] file. *)
Theorem load_trained_model_returns_first_loadable
    (model_object : Type) (fs : FileSystem) (xgboost_available : bool)
    (load_booster : Path -> result model_object)
    (joblib_load : Path -> result (option model_object))
    (model_name : string) (model_path : option Path)
    (model : model_object) (tag : option string) :
  load_trained_model model_object fs xgboost_available load_booster
    joblib_load model_name model_path = Ok (model, tag) ->
  exists before path after model_type,
    possible_paths fs model_name model_path = before ++ path :: after
    /\ Forall (skipped model_object fs xgboost_available load_booster
                 joblib_load) before
    /\ loads model_object fs xgboost_available load_booster joblib_load
         path model model_type
    /\ tag = Some model_type.
Proof.
  unfold load_trained_model.
  destruct (try_paths model_object fs xgboost_available load_booster
              joblib_load (possible_paths fs model_name model_path))
    as [[m|] t] eqn:Hwalk; [|discriminate].
  intros [= <- <-].
  now apply try_paths_found.
Qed.

Lemma load_trained_model_returns_first_loadable_witness :
  exists before path after,
    possible_paths ModelExamples.fs "xgboost_spy_v1" None
    = before ++ path :: after
    /\ List.length before = 6
    /\ loads ModelExamples.model_object ModelExamples.fs true
         ModelExamples.load_booster ModelExamples.joblib_load
         path "forest" "sklearn".
Proof.
  destruct (load_trained_model_returns_first_loadable
              ModelExamples.model_object ModelExamples.fs true
              ModelExamples.load_booster ModelExamples.joblib_load
              "xgboost_spy_v1" None "forest" (Some "sklearn") eq_refl)
    as (before & path & after & model_type & Hpaths & Hskip & Hload & Htag).
  injection Htag as <-.
  exists (firstn 6 (possible_paths ModelExamples.fs "xgboost_spy_v1" None)),
         (of_string "../models/xgboost_spy_v1.pkl"),
         (skipn 7 (possible_paths ModelExamples.fs "xgboost_spy_v1" None)).
  split; [reflexivity|]. split; [reflexivity|].
  split; [reflexivity|]. right. repeat split; reflexivity.
Defined.

(** X11. When xgboost cannot be imported, every model that
    [load_trained_model] returns is tagged [sklearn] and was unpickled
    from an existing [.pkl] candidate. *)
Theorem load_trained_model_without_xgboost
    (model_object : Type) (fs : FileSystem)
    (load_booster : Path -> result model_object)
    (joblib_load : Path -> result (option model_object))
    (model_name : string) (model_path : option Path)
    (model : model_object) (tag : option string) :
  load_trained_model model_object fs false load_booster joblib_load
    model_name model_path = Ok (model, tag) ->
  tag = Some "sklearn"
  /\ exists path,
       In path (possible_paths fs model_name model_path)
       /\ path_exists fs path = true
       /\ suffix path = ".pkl"
       /\ joblib_load path = Ok (Some model).
Proof.
  intros Hload.
  destruct (load_trained_model_returns_first_loadable _ _ _ _ _ _ _ _ _ Hload)
    as (before & path & after & model_type & Hpaths & _ & Hloads & ->).
  destruct Hloads as [Hex [(_ & Hx & _)|(Hs & Hl & ->)]]; [discriminate|].
  split; [reflexivity|]. exists path. repeat split; try assumption.
  rewrite Hpaths. apply in_or_app. right. now left.
Qed.

Lemma load_trained_model_without_xgboost_witness :
  exists path,
    In path (possible_paths ModelExamples.fs "xgboost_spy_v1" None)
    /\ ModelExamples.joblib_load path = Ok (Some "forest").
Proof.
  destruct (load_trained_model_without_xgboost
              ModelExamples.model_object ModelExamples.fs
              ModelExamples.load_booster ModelExamples.joblib_load
              "xgboost_spy_v1" None "forest" (Some "sklearn") eq_refl)
    as (_ & path & Hin & _ & _ & Hload).
  exists path. split; assumption.
Defined.

(** X12. A [.pkl] candidate whose pickled object is [None] ends the search
    when every candidate before it was passed over: the candidates after
    it are not tried, even if one of them would load, and
    [load_trained_model] raises its not-found error. *)
Theorem load_trained_model_pickled_none
    (model_object : Type) (fs : FileSystem) (xgboost_available : bool)
    (load_booster : Path -> result model_object)
    (joblib_load : Path -> result (option model_object))
    (model_name : string) (model_path : option Path)
    (before : list Path) (path : Path) (after : list Path) :
  possible_paths fs model_name model_path = before ++ path :: after ->
  Forall (skipped model_object fs xgboost_available load_booster
            joblib_load) before ->
  unpickles_none model_object fs joblib_load path ->
  exists msg,
    load_trained_model model_object fs xgboost_available load_booster
      joblib_load model_name model_path
    = Raise (FileNotFoundError msg).
Proof.
  intros Hpaths Hskip Hnone. unfold load_trained_model. rewrite Hpaths.
  rewrite (try_paths_pickled_none model_object fs xgboost_available
             load_booster joblib_load before path after Hskip Hnone).
  eexists. reflexivity.
Qed.

Lemma load_trained_model_pickled_none_witness :
  (exists msg,
     load_trained_model string PickleExamples.fs true
       PickleExamples.load_booster PickleExamples.joblib_load
       "xgboost_spy_v1" None
     = Raise (FileNotFoundError msg))
  /\ load_trained_model string PickleExamples.fs_json true
       PickleExamples.load_booster PickleExamples.joblib_load
       "xgboost_spy_v1" None
     = Ok ("booster", Some "xgboost").
Proof.
  split; [|reflexivity].
  apply (load_trained_model_pickled_none string PickleExamples.fs true
           PickleExamples.load_booster PickleExamples.joblib_load
           "xgboost_spy_v1" None []
           (of_string "/proj/models/xgboost_spy_v1.pkl")
           (tl (possible_paths PickleExamples.fs "xgboost_spy_v1" None))).
  - reflexivity.
  - constructor.
  - repeat split; reflexivity.
Defined.

(* ================================================================== *)
(** * Further properties of the path resolver *)
(* ================================================================== *)

(** X13. A file name that starts with [/] is taken as it is by
    [resolve_data_path] and [resolve_model_path]: the result is that
    absolute path, resolved, and neither the project root nor the data
    type plays a part. *)
Theorem resolve_paths_absolute_name
    (fs : FileSystem) (rest data_type : string) :
  let name := String "/" rest in
  resolve_data_path fs name data_type = resolve fs (of_string name)
  /\ resolve_model_path fs name = resolve fs (of_string name).
Proof.
  intros name. unfold resolve_data_path, resolve_model_path.
  split; f_equal; unfold joinpath at 1; reflexivity.
Qed.
